(** * Digital-Prompts-Generator: the document-template population engine

    A shallow embedding of the DOCX builder of [app.py]
    ([generate_attachment_docx], [_make_run], [_set_cell_text],
    [_get_cell_text], [_fix_template_ref], [_unique_cells],
    [_update_header_filename], [create_prompt_docx], [create_zip]) and the
    properties of it that the specification states.

    Python strings are lists of code points, a record (a decoded JSON object)
    is a finite map from keys to JSON values, a raised exception is the [Err]
    branch of [result], and the cells of a table live in a store indexed by
    the identity of the underlying [<w:tc>] element, so that merged cells are
    shared the way python-docx shares them. *)

From Stdlib Require Import ZArith NArith List Bool Ascii String Lia.
From stdpp Require Import base option list gmap strings.

Open Scope list_scope.

(** ** Python strings *)

Module Py.

Definition char := N.
Definition pystr := list char.

(** An ASCII literal as a Python string. *)
Definition lit (s : string) : pystr :=
  map N_of_ascii (list_ascii_of_string s).

Definition NL : char := 10%N.    (* '\n' *)
Definition STAR : char := 42%N.  (* '*' *)
Definition BULLET : char := 8226%N. (* U+2022 *)
Definition EMDASH : char := 8212%N. (* U+2014 *)
Definition CLIPBOARD : char := 128203%N. (* U+1F4CB *)

(** [str.isspace] on one code point, the set [str.strip()] and the regular
    expression class [\s] use. *)
Definition isspace (c : char) : bool :=
  ((9 <=? c) && (c <=? 13) || (28 <=? c) && (c <=? 32)
   || (c =? 133) || (c =? 160) || (c =? 5760)
   || (8192 <=? c) && (c <=? 8202)
   || (c =? 8232) || (c =? 8233) || (c =? 8239) || (c =? 8287)
   || (c =? 12288))%N.

Fixpoint lstrip (s : pystr) : pystr :=
  match s with
  | c :: s' => if isspace c then lstrip s' else s
  | [] => []
  end.

Definition rstrip (s : pystr) : pystr := rev (lstrip (rev s)).

(** [s.strip()] *)
Definition strip (s : pystr) : pystr := rstrip (lstrip s).

Definition str_eqb (a b : pystr) : bool := bool_decide (a = b).

(** [s.startswith(p)] *)
Fixpoint startswith (p s : pystr) : bool :=
  match p, s with
  | [], _ => true
  | a :: p', b :: s' => (a =? b)%N && startswith p' s'
  | _ :: _, [] => false
  end.

(** [s.endswith(p)] *)
Definition endswith (p s : pystr) : bool := startswith (rev p) (rev s).

(** [needle in hay] *)
Fixpoint contains (needle hay : pystr) : bool :=
  startswith needle hay ||
  match hay with
  | [] => false
  | _ :: hay' => contains needle hay'
  end.

(** [s.split(sep)] for a one-character separator: never empty. *)
Fixpoint split_on (sep : char) (s : pystr) : list pystr :=
  match s with
  | [] => [[]]
  | c :: s' =>
      if (c =? sep)%N then [] :: split_on sep s'
      else match split_on sep s' with
           | w :: ws => (c :: w) :: ws
           | [] => [[c]]
           end
  end.

(** [s[2:]] and [s[2:-2]] *)
Definition drop2 (s : pystr) : pystr := skipn 2 s.
Definition slice_2_m2 (s : pystr) : pystr := firstn (length s - 4) (skipn 2 s).

(** [s[:50]] *)
Definition take50 (s : pystr) : pystr := firstn 50 s.

(** [s.rsplit('.', 1)[0]]: what precedes the last dot, the whole string when
    there is none. *)
Fixpoint rsplit_dot_head (s : pystr) : pystr :=
  match s with
  | [] => []
  | c :: s' =>
      if existsb (N.eqb 46) s' then c :: rsplit_dot_head s'
      else if (c =? 46)%N then [] else s
  end.

End Py.
Import Py.

Declare Scope py_scope.
Delimit Scope py_scope with py.
Notation "'py:' s" := (lit s) (at level 9, s at level 0, format "'py:' s") : py_scope.
Open Scope py_scope.

(** ** Regular expressions of the renderer *)

(** The Unicode database is not part of the program: the decimal-digit and
    case tables are taken as given outside ASCII. *)
Class UnicodeDB := {
  uni_isdecimal : char -> bool;   (* Py_UNICODE_ISDECIMAL, code points >= 128 *)
  uni_isupper : char -> bool;     (* Py_UNICODE_ISUPPER, code points >= 128 *)
  uni_islower : char -> bool;     (* Py_UNICODE_ISLOWER, code points >= 128 *)
  uni_istitle : char -> bool      (* Py_UNICODE_ISTITLE, code points >= 128 *)
}.

Section Regex.
Context {U : UnicodeDB}.

(** [\d] *)
Definition re_digit (c : char) : bool :=
  if (c <? 128)%N then (48 <=? c)%N && (c <=? 57)%N else uni_isdecimal c.

Fixpoint skip_digits (s : pystr) : pystr :=
  match s with
  | c :: s' => if re_digit c then skip_digits s' else s
  | [] => []
  end.

(** [re.match(r'^\d+\.\s', s)] as a truth value. *)
Definition re_match_numbered (s : pystr) : bool :=
  match s with
  | c :: s' =>
      re_digit c &&
      match skip_digits s' with
      | d :: sp :: _ => (d =? 46)%N && isspace sp
      | _ => false
      end
  | [] => false
  end.

(** The bold pattern of the renderer is two literal stars, [.+?], two literal
    stars, in one capturing group. [after_delim s] is what follows a
    delimiter at the start of [s]. [lazy_body] is the body [.+?], read after
    the opening delimiter: the shortest non-empty run of characters other than
    a line feed that is followed by the closing delimiter, and what follows
    it. *)
Definition after_delim (s : pystr) : option pystr :=
  match s with
  | a :: b :: rest => if (a =? STAR)%N && (b =? STAR)%N then Some rest else None
  | _ => None
  end.

Fixpoint lazy_body (s : pystr) : option (pystr * pystr) :=
  match s with
  | [] => None
  | c :: s' =>
      if (c =? NL)%N then None
      else match after_delim s' with
           | Some rest => Some ([c], rest)
           | None => match lazy_body s' with
                     | Some (x, rest) => Some (c :: x, rest)
                     | None => None
                     end
           end
  end.

(** A match of the bold pattern at the start of [s]: the matched body and
    the rest of the string. *)
Definition match_bold (s : pystr) : option (pystr * pystr) :=
  match after_delim s with
  | Some s' => lazy_body s'
  | None => None
  end.

(** [re.split] on the bold pattern: the text before each match, the match
    with its delimiters, ..., the text after the last match. [acc] holds, in
    reverse, the text read since the last match; a match consumes at least one
    character, so [length s] steps of fuel are never exhausted. *)
Fixpoint re_split_bold_aux (fuel : nat) (acc s : pystr) : list pystr :=
  match fuel with
  | O => [rev acc ++ s]
  | S fuel' =>
      match s with
      | [] => [rev acc]
      | c :: s' =>
          match match_bold s with
          | Some (x, rest) =>
              rev acc :: ([STAR; STAR] ++ x ++ [STAR; STAR])
                      :: re_split_bold_aux fuel' [] rest
          | None => re_split_bold_aux fuel' (c :: acc) s'
          end
      end
  end.

Definition re_split_bold (s : pystr) : list pystr :=
  re_split_bold_aux (S (length s)) [] s.

End Regex.

(** The tables that know nothing outside ASCII. *)
Definition ascii_tables : UnicodeDB :=
  {| uni_isdecimal := fun _ => false; uni_isupper := fun _ => false;
     uni_islower := fun _ => false; uni_istitle := fun _ => false |}.

(** ** Exceptions and JSON values *)

Inductive exn :=
  | FileNotFoundError
  | AttributeError
  | IndexError
  | DocxError (msg : pystr).   (* whatever python-docx raises on a package *)

Inductive result (A : Type) :=
  | Ok (a : A)
  | Err (e : exn).
Arguments Ok {A} a.
Arguments Err {A} e.

#[global] Instance result_ret : MRet result := fun _ a => Ok a.
#[global] Instance result_bind : MBind result := fun _ _ k m =>
  match m with
  | Ok a => k a
  | Err e => Err e
  end.
#[global] Instance result_fmap : FMap result := fun _ _ f m =>
  match m with
  | Ok a => Ok (f a)
  | Err e => Err e
  end.

Definition is_ok {A} (m : result A) : bool :=
  match m with Ok _ => true | Err _ => false end.

(** A value of a decoded JSON object. A number, an array or an object is seen
    through the only two things the builder can observe of it without
    raising: what [str()] shows and its truth value. *)
Inductive pyval :=
  | PStr (s : pystr)
  | PBool (b : bool)
  | PNone
  | POther (shown : pystr) (truth : bool).

(** [bool(v)] *)
Definition truthy (v : pyval) : bool :=
  match v with
  | PStr s => negb (bool_decide (s = []))
  | PBool b => b
  | PNone => false
  | POther _ t => t
  end.

(** What an f-string shows of [v]. *)
Definition py_format (v : pyval) : pystr :=
  match v with
  | PStr s => s
  | PBool true => lit "True"
  | PBool false => lit "False"
  | PNone => lit "None"
  | POther shown _ => shown
  end.

(** A method of [str] called on [v]: only a string has it. *)
Definition as_str (v : pyval) : result pystr :=
  match v with
  | PStr s => Ok s
  | _ => Err AttributeError
  end.

(** [d.get(key, default)] *)
Definition dict_get (d : gmap string pyval) (key : string) (dflt : pyval) : pyval :=
  default dflt (d !! key).

(** ** Documents *)

Record run := Run {
  run_text : pystr;
  run_bold : bool;
  run_italic : bool;
  run_size : option N;           (* points *)
  run_color : option N;          (* RGB *)
  run_theme_font : bool;         (* rFonts asciiTheme/hAnsiTheme = minorHAnsi *)
  run_space_preserve : bool;     (* xml:space = preserve *)
  run_page_break : bool          (* a page break element in the run *)
}.

Record paragraph := Paragraph {
  p_space_before : option N;     (* twips *)
  p_space_after : option N;      (* twips *)
  p_line : option N;             (* w:line, lineRule auto *)
  p_left_indent : option N;      (* twips *)
  p_hanging : option N;          (* twips *)
  p_mark : option bool;          (* run properties of the paragraph mark: bold? *)
  p_runs : list run
}.

(** A child of a table cell element: a paragraph, or anything else (cell
    properties, a nested table, ...) with the text nodes below it. *)
Inductive tc_child :=
  | TcP (p : paragraph)
  | TcOther (texts : list pystr).

Definition cell := list tc_child.

(** A table: each row lists, per grid column, the identity of the cell
    element python-docx hands out there (a merged cell shows up once per
    column it spans); the store holds the cells. *)
Record table := Table {
  tbl_rows : list (list nat);
  tbl_cells : gmap nat cell
}.

Inductive body_elem :=
  | BP (p : paragraph)
  | BTbl (t : table)
  | BSectPr (margins : option N)   (* all four page margins, twips *)
  | BOther (tag : pystr).

Record document := Document {
  doc_settings : list pystr;       (* tags of the children of w:settings *)
  doc_headers : list (list pystr); (* text nodes of each header part *)
  doc_body : list body_elem
}.

Definition bytes := list N.

(** python-docx and the template directory. *)
Class DocxLib := {
  docx_parse : bytes -> result document;   (* Document(file) *)
  docx_save : document -> bytes;           (* doc.save(buf); buf.getvalue() *)
  docx_default : document;                 (* Document() *)
  template_file : string -> option bytes   (* the file TEMPLATES_DIR / name *)
}.

Definition plain_paragraph : paragraph :=
  Paragraph None None None None None None [].

(** A run as [paragraph.add_run(text)] makes it. *)
Definition add_run (text : pystr) : run :=
  Run text false false None None false false false.

Definition Pt (n : N) : N := (20 * n)%N.          (* points, in twips *)
Definition inches_0_3 : N := 432%N.               (* Inches(0.3), in twips *)
Definition inches_1_0 : N := 1440%N.              (* Inches(1.0), in twips *)
Definition navy : N := 8288%N.                    (* RGBColor(0x00, 0x20, 0x60) *)
Definition ochre : N := 8018944%N.                (* RGBColor(0x7a, 0x5c, 0x00) *)

(** [doc.add_paragraph()] puts the paragraph before the first
    section-properties child of the body, at the end when there is none. *)
Fixpoint body_add_p (p : paragraph) (body : list body_elem) : list body_elem :=
  match body with
  | [] => [BP p]
  | BSectPr m :: rest => BP p :: BSectPr m :: rest
  | e :: rest => e :: body_add_p p rest
  end.

Definition add_paragraph (p : paragraph) (d : document) : document :=
  Document (doc_settings d) (doc_headers d) (body_add_p p (doc_body d)).

(** ** The cell renderer *)

Section Builder.
Context {U : UnicodeDB} {L : DocxLib}.

(** [_make_run(text, bold)] *)
Definition _make_run (text : pystr) (bold : bool) : run :=
  let preserve :=
    match text with
    | [] => false
    | c :: _ => (c =? 32)%N || (List.last text 0%N =? 32)%N
    end in
  Run text bold false None None true preserve false.

(** [text.split('\n') if text else ['']] *)
Definition cell_lines (text : pyval) : result (list pystr) :=
  if truthy text then s ← as_str text; Ok (split_on NL s) else Ok [[]].

Definition is_bullet (stripped : pystr) : bool :=
  startswith py:"- " stripped || startswith [BULLET; 32%N] stripped.

Definition is_numbered (stripped : pystr) : bool :=
  re_match_numbered stripped.

(** The text a line of the field is shown as. *)
Definition display_line (line : pystr) : pystr :=
  let stripped := strip line in
  if is_bullet stripped || is_numbered stripped then
    if is_bullet stripped then [BULLET; 32%N] ++ drop2 stripped else stripped
  else line.

(** One element of the split line: a part that starts and ends with the
    delimiter loses two characters at each end and is bold, another part that
    is not empty is a run of its own. *)
Definition part_runs (bold : bool) (part : pystr) : list run :=
  if startswith py:"**" part && endswith py:"**" part then
    [_make_run (slice_2_m2 part) true]
  else if bool_decide (part = []) then []
  else [_make_run part bold].

Definition line_runs (bold : bool) (display : pystr) : list run :=
  flat_map (part_runs bold) (re_split_bold display).

(** The body of the loop over [lines] in [_set_cell_text]. *)
Definition cell_paragraph (bold : bool) (line : pystr) : paragraph :=
  let stripped := strip line in
  let listed := is_bullet stripped || is_numbered stripped in
  {| p_space_before := None;
     p_space_after := Some 0%N;
     p_line := Some 240%N;
     p_left_indent := if listed then Some 360%N else None;
     p_hanging := if listed then Some 360%N else None;
     p_mark := Some bold;
     p_runs := line_runs bold (display_line line) |}.

Definition is_TcP (ch : tc_child) : bool :=
  match ch with TcP _ => true | TcOther _ => false end.

(** [_set_cell_text(cell, text, bold)]: the paragraphs of the cell are
    removed, its other children stay, one paragraph per line is appended. *)
Definition _set_cell_text (c : cell) (text : pyval) (bold : bool) : result cell :=
  let kept := List.filter (fun ch => negb (is_TcP ch)) c in
  lines ← cell_lines text;
  Ok (kept ++ map (fun line => TcP (cell_paragraph bold line)) lines).

Definition child_texts (ch : tc_child) : list pystr :=
  match ch with
  | TcP p => map run_text (p_runs p)
  | TcOther texts => texts
  end.

(** [_get_cell_text(cell)] *)
Definition _get_cell_text (c : cell) : pystr :=
  strip (concat (flat_map child_texts c)).

(** [_fix_template_ref(doc)]: the loop over the relationships does nothing;
    every child of the settings element whose tag contains
    [attachedTemplate] is removed. *)
Definition _fix_template_ref (d : document) : document :=
  Document
    (List.filter (fun tag => negb (contains py:"attachedTemplate" tag)) (doc_settings d))
    (doc_headers d) (doc_body d).

(** [_unique_cells(row)] *)
Fixpoint unique_cells_from (seen : gset nat) (cells : list nat) : list nat :=
  match cells with
  | [] => []
  | c :: cells' =>
      if decide (c ∈ seen) then unique_cells_from seen cells'
      else c :: unique_cells_from ({[c]} ∪ seen) cells'
  end.

Definition _unique_cells (row : list nat) : list nat :=
  unique_cells_from ∅ row.

(** [_update_header_filename(doc, filename)]: the first text node, over the
    header parts in order, whose text is not blank is overwritten. *)
Fixpoint replace_first_text (filename : pystr) (ts : list pystr) : option (list pystr) :=
  match ts with
  | [] => None
  | t :: ts' =>
      if bool_decide (strip t = []) then cons t <$> replace_first_text filename ts'
      else Some (filename :: ts')
  end.

Fixpoint update_headers (filename : pystr) (hs : list (list pystr)) : list (list pystr) :=
  match hs with
  | [] => []
  | h :: hs' =>
      match replace_first_text filename h with
      | Some h' => h' :: hs'
      | None => h :: update_headers filename hs'
      end
  end.

Definition _update_header_filename (d : document) (filename : pystr) : document :=
  Document (doc_settings d) (update_headers filename (doc_headers d)) (doc_body d).

(** ** The standalone attachment document *)

(** [str.isupper] *)
Definition char_isupper (c : char) : bool :=
  if (c <? 128)%N then (65 <=? c)%N && (c <=? 90)%N else uni_isupper c.
Definition char_islower (c : char) : bool :=
  if (c <? 128)%N then (97 <=? c)%N && (c <=? 122)%N else uni_islower c.
Definition char_istitle (c : char) : bool :=
  if (c <? 128)%N then false else uni_istitle c.

Fixpoint isupper_from (cased : bool) (s : pystr) : bool :=
  match s with
  | [] => cased
  | c :: s' =>
      if char_islower c || char_istitle c then false
      else isupper_from (cased || char_isupper c) s'
  end.

Definition str_isupper (s : pystr) : bool := isupper_from false s.

(** [doc.sections[0]] with its four margins set. *)
Fixpoint set_first_margins (m : N) (body : list body_elem) : result (list body_elem) :=
  match body with
  | [] => Err IndexError
  | BSectPr _ :: rest => Ok (BSectPr (Some m) :: rest)
  | e :: rest => cons e <$> set_first_margins m rest
  end.

Definition sized_run (text : pystr) (bold : bool) (size : N) (color : option N) : run :=
  Run text bold false (Some size) color false false false.

(** The paragraph of one non-blank line of the attachment content. *)
Definition attachment_line (line : pystr) : paragraph :=
  let stripped := strip line in
  let base indent runs :=
    Paragraph (Some (Pt 0)) (Some (Pt 2)) None indent None None runs in
  if bool_decide (stripped = []) then plain_paragraph
  else if str_isupper stripped
          || endswith py:":" stripped && (length stripped <? 60)%nat then
    base None [sized_run stripped true 11 (Some navy)]
  else if is_bullet stripped then
    base (Some inches_0_3) [sized_run ([BULLET; 32%N] ++ drop2 stripped) false 10 None]
  else if is_numbered stripped then
    base (Some inches_0_3) [sized_run stripped false 10 None]
  else
    base None
      (flat_map (fun part =>
         if startswith py:"**" part && endswith py:"**" part then
           [sized_run (slice_2_m2 part) true 10 None]
         else if bool_decide (part = []) then []
         else [sized_run part false 10 None])
       (re_split_bold line)).

Definition attachment_banner : pystr :=
  [CLIPBOARD] ++ py:" SAMPLE FILE FOR AI EXERCISE  " ++ [EMDASH]
  ++ py:"  Use this document as input for your prompt.".

(** [generate_attachment_docx(prompt)] *)
Definition generate_attachment_docx (prompt : gmap string pyval) : result (option bytes) :=
  content ← strip <$> as_str (dict_get prompt "attachment_content" (PStr []));
  if bool_decide (content = []) then Ok None
  else
    let description := dict_get prompt "attachment_description" (PStr py:"Sample attachment") in
    let pid := dict_get prompt "prompt_id" (PStr []) in
    let doc := docx_default in
    body ← set_first_margins inches_1_0 (doc_body doc);
    let doc := Document (doc_settings doc) (doc_headers doc) body in
    let title :=
      Paragraph None (Some (Pt 4)) None None None None
        [sized_run (py_format pid ++ [32%N; EMDASH; 32%N] ++ py_format description)
                   true 14 (Some navy)] in
    let doc := add_paragraph title doc in
    let doc := add_paragraph plain_paragraph doc in
    let note :=
      Paragraph None (Some (Pt 8)) None None None None
        [sized_run attachment_banner true 9 (Some ochre)] in
    let doc := add_paragraph note doc in
    let doc :=
      fold_left (fun d line => add_paragraph (attachment_line line) d)
                (split_on NL content) doc in
    Ok (Some (docx_save doc)).

(** ** The document assembler *)

Definition template_name (is_friday : bool) : string :=
  if is_friday then "Friday_Prompt_Template.docx"%string
  else "Daily_Prompt_Template.docx"%string.

(** The dictionary [label_to_key], in insertion order. *)
Definition label_to_key : list (pystr * string) :=
  [ (py:"E-Mail Message", "email_message"%string);
    (py:"Learning Objective", "learning_objective"%string);
    (py:"Demonstrated AI Capability", "demonstrated_ai_capability"%string);
    (py:"Test Response", "test_response"%string);
    (py:"Attachment (if required)", "attachment_text"%string) ].

Definition cell_at (cells : gmap nat cell) (i : nat) : cell :=
  default [] (cells !! i).

Definition is_header_text (left_text : pystr) : bool :=
  contains py:"DP##" left_text || contains py:"FP##" left_text.

(** The loop over [label_to_key.items()] of a content row. *)
Fixpoint fill_label (data : gmap string pyval) (cells : gmap nat cell)
    (ucells : list nat) (left_text : pystr) (labels : list (pystr * string))
    : result (gmap nat cell) :=
  match labels with
  | [] => Ok cells
  | (label, key) :: labels' =>
      if contains label left_text && (1 <? length ucells)%nat then
        let target := List.last ucells 0%nat in
        c ← _set_cell_text (cell_at cells target) (dict_get data key (PStr [])) false;
        Ok (<[target := c]> cells)
      else fill_label data cells ucells left_text labels'
  end.

(** The body of the loop over [tbl.rows]. *)
Definition process_row (data : gmap string pyval) (pid : pyval)
    (cells : gmap nat cell) (row : list nat) : result (gmap nat cell) :=
  let ucells := _unique_cells row in
  match ucells with
  | [] => Ok cells
  | u0 :: _ =>
      let left_text := _get_cell_text (cell_at cells u0) in
      if is_header_text left_text then
        c0 ← _set_cell_text (cell_at cells u0) pid true;
        let cells := <[u0 := c0]> cells in
        if (2 <? length ucells)%nat then
          let u2 := nth 2 ucells 0%nat in
          c2 ← _set_cell_text (cell_at cells u2) (dict_get data "ai_prompt" (PStr [])) false;
          Ok (<[u2 := c2]> cells)
        else Ok cells
      else fill_label data cells ucells left_text label_to_key
  end.

Fixpoint process_rows (data : gmap string pyval) (pid : pyval)
    (cells : gmap nat cell) (rows : list (list nat)) : result (gmap nat cell) :=
  match rows with
  | [] => Ok cells
  | row :: rows' =>
      cells' ← process_row data pid cells row;
      process_rows data pid cells' rows'
  end.

Definition fill_table (data : gmap string pyval) (pid : pyval) (t : table) : result table :=
  cells ← process_rows data pid (tbl_cells t) (tbl_rows t);
  Ok (Table (tbl_rows t) cells).

(** [doc.tables[0]], filled in place. *)
Fixpoint fill_first_table (data : gmap string pyval) (pid : pyval)
    (body : list body_elem) : result (list body_elem) :=
  match body with
  | [] => Err IndexError
  | BTbl t :: rest => t' ← fill_table data pid t; Ok (BTbl t' :: rest)
  | e :: rest => cons e <$> fill_first_table data pid rest
  end.

Definition is_p_or_tbl (e : body_elem) : bool :=
  match e with
  | BP _ | BTbl _ => true
  | _ => false
  end.

(** [body.insert(list(body).index(sect_pr), element)] with [sect_pr] the last
    child of the body. *)
Definition insert_before_last (e : body_elem) (body : list body_elem) : list body_elem :=
  match reverse body with
  | sect_pr :: init => reverse init ++ [e; sect_pr]
  | [] => [e]
  end.

(** The [try] block of the merge. *)
Definition merge_attachment (attachment_bytes : bytes) (d : document) : result document :=
  att_doc ← docx_parse attachment_bytes;
  match doc_body d with
  | [] => Err IndexError
  | _ =>
      Ok (Document (doc_settings d) (doc_headers d)
            (fold_left (fun body e => if is_p_or_tbl e then insert_before_last e body else body)
                       (doc_body att_doc) (doc_body d)))
  end.

Definition exn_str (e : exn) : pystr :=
  match e with
  | FileNotFoundError => py:"Template not found"
  | AttributeError => py:"object has no attribute"
  | IndexError => py:"list index out of range"
  | DocxError msg => msg
  end.

Definition page_break_paragraph : paragraph :=
  Paragraph None None None None None None
    [Run [] false false None None false false true].

Definition banner_paragraph (attachment_name : pyval) : paragraph :=
  Paragraph None (Some (Pt 4)) None None None None
    [sized_run (py:"SAMPLE ATTACHMENT " ++ [EMDASH; 32%N] ++ py_format attachment_name)
               true 13 (Some navy)].

Definition note_text : pystr :=
  py:"This sample file was generated for your AI prompt exercise. Use it as the input document when running the prompt on the previous page.".

Definition note_paragraph : paragraph :=
  Paragraph None (Some (Pt 10)) None None None None
    [Run note_text false true (Some 9%N) (Some ochre) false false false].

Definition fallback_paragraph (e : exn) : paragraph :=
  Paragraph None None None None None None
    [Run (py:"[Could not merge attachment: " ++ exn_str e ++ py:"]")
         false false (Some 9%N) None false false false].

Definition bytes_truthy (b : option bytes) : bool :=
  match b with
  | Some (_ :: _) => true
  | _ => false
  end.

(** The attachment section appended after the table is filled. *)
Definition append_attachment (attachment_bytes : option bytes)
    (attachment_name : pyval) (d : document) : document :=
  match attachment_bytes with
  | Some b =>
      if bytes_truthy attachment_bytes && truthy attachment_name then
        let d := add_paragraph page_break_paragraph d in
        let d := add_paragraph (banner_paragraph attachment_name) d in
        let d := add_paragraph note_paragraph d in
        match merge_attachment b d with
        | Ok d' => d'
        | Err e => add_paragraph (fallback_paragraph e) d
        end
      else d
  | None => d
  end.

(** [create_prompt_docx] up to the call of [doc.save]: the record as the call
    leaves it (the key [attachment_text] is added to it) and the document. *)
Definition build_prompt_document (data : gmap string pyval) (is_friday : bool)
    (agent industry : pystr) (attachment_bytes : option bytes)
    (attachment_name : pyval) : result (gmap string pyval * document) :=
  match template_file (template_name is_friday) with
  | None => Err FileNotFoundError
  | Some file =>
      doc ← docx_parse file;
      let doc := _fix_template_ref doc in
      let pid := dict_get data "prompt_id" (PStr py:"DP01") in
      topic ← strip <$> as_str (dict_get data "demonstrated_ai_capability" (PStr py:"Prompt"));
      let file_label := py_format pid ++ py:" - Prompt Topic - " ++ topic in
      let doc := _update_header_filename doc file_label in
      let att :=
        if truthy (dict_get data "attachment_required" PNone)
        then dict_get data "attachment_description" (PStr [])
        else PStr py:"None required" in
      let data := <["attachment_text"%string := att]> data in
      body ← fill_first_table data pid (doc_body doc);
      let doc := Document (doc_settings doc) (doc_headers doc) body in
      Ok (data, append_attachment attachment_bytes attachment_name doc)
  end.

Definition create_prompt_docx (data : gmap string pyval) (is_friday : bool)
    (agent industry : pystr) (attachment_bytes : option bytes)
    (attachment_name : pyval) : result (gmap string pyval * bytes) :=
  '(data', doc) ← build_prompt_document data is_friday agent industry
                    attachment_bytes attachment_name;
  Ok (data', docx_save doc).

(** ** The archive packager *)

(** [re.sub] of the path characters (backslash, slash, colon, star, question
    mark, double quote, angle brackets, bar) by a hyphen. *)
Definition path_char (c : char) : bool :=
  existsb (N.eqb c) [92; 47; 58; 42; 63; 34; 60; 62; 124]%N.

Definition sanitize (s : pystr) : pystr :=
  map (fun c => if path_char c then 45%N else c) s.

(** The name the attachment is merged and packed under. *)
Definition attachment_name_of (p : gmap string pyval) (has_att : bool) : result pyval :=
  let att_name :=
    if has_att then dict_get p "attachment_filename" (PStr py:"Attachment.docx")
    else PNone in
  if truthy att_name then
    s ← as_str att_name;
    if endswith py:".docx" s then Ok att_name
    else Ok (PStr (rsplit_dot_head s ++ py:".docx"))
  else Ok att_name.

(** The body of the loop of [create_zip]: the entries one record adds to the
    archive. *)
Definition zip_record (p : gmap string pyval) (f : bool) (agent industry : pystr)
    : result (list (pystr * bytes)) :=
  let pid := dict_get p "prompt_id" (PStr py:"P01") in
  topic ← strip <$> as_str (dict_get p "demonstrated_ai_capability" (PStr py:"Prompt"));
  let has_att := truthy (dict_get p "attachment_required" PNone) in
  att_bytes ← (if has_att then generate_attachment_docx p else Ok None);
  att_name ← attachment_name_of p has_att;
  let prompt_fname := py_format pid ++ py:" - " ++ topic ++ py:".docx" in
  '(p, main) ← create_prompt_docx p f agent industry att_bytes att_name;
  match att_bytes with
  | Some b =>
      if bytes_truthy att_bytes && truthy att_name then
        short_desc ← strip <$> as_str (dict_get p "attachment_description" (PStr py:"Sample"));
        let short_desc :=
          if (50 <? length short_desc)%nat then rstrip (take50 short_desc)
          else short_desc in
        let safe_desc := sanitize short_desc in
        let att_zip_name :=
          py_format pid ++ py:" - Sample Attachment - " ++ safe_desc ++ py:".docx" in
        Ok [(prompt_fname, main); (att_zip_name, b)]
      else Ok [(prompt_fname, main)]
  | None => Ok [(prompt_fname, main)]
  end.

(** [create_zip(prompts, is_friday_list, agent, industry)]: the entries of the
    archive in the order they are written; [zip] stops at the shorter list. *)
Fixpoint create_zip (prompts : list (gmap string pyval)) (is_friday_list : list bool)
    (agent industry : pystr) : result (list (pystr * bytes)) :=
  match prompts, is_friday_list with
  | p :: prompts', f :: is_friday_list' =>
      entries ← zip_record p f agent industry;
      rest ← create_zip prompts' is_friday_list' agent industry;
      Ok (entries ++ rest)
  | _, _ => Ok []
  end.

End Builder.

(** ** Access control *)

Definition SSA_ADMIN_DOMAIN : pystr := lit "@ssaandco.com".

(** The character classes of the two address patterns. *)
Definition ascii_letter (c : char) : bool :=
  ((65 <=? c) && (c <=? 90) || (97 <=? c) && (c <=? 122))%N.

Definition ascii_digit (c : char) : bool := ((48 <=? c) && (c <=? 57))%N.

(** [[a-zA-Z0-9._%+\-]] *)
Definition local_char (c : char) : bool :=
  ascii_letter c || ascii_digit c || existsb (N.eqb c) [46; 95; 37; 43; 45]%N.

(** [[a-zA-Z0-9.\-]] *)
Definition domain_char (c : char) : bool :=
  ascii_letter c || ascii_digit c || existsb (N.eqb c) [46; 45]%N.

(** The longest prefix of characters of a class, and the rest. *)
Fixpoint span (f : char -> bool) (s : pystr) : pystr * pystr :=
  match s with
  | c :: s' => if f c then (c :: (span f s').1, (span f s').2) else ([], s)
  | [] => ([], [])
  end.

(** The anchor [$]: the end of the string, or a line feed that ends it. *)
Definition at_end (s : pystr) : bool :=
  match s with
  | [] => true
  | [c] => (c =? NL)%N
  | _ => false
  end.

(** [[a-zA-Z]{2,}$] *)
Definition tld_ok (s : pystr) : bool :=
  (2 <=? length (span ascii_letter s).1)%nat && at_end (span ascii_letter s).2.

(** [[a-zA-Z0-9.\-]+\.[a-zA-Z]{2,}$], tried at every dot the class lets the
    repetition stop at; [seen] tells that the repetition has read a
    character. *)
Fixpoint domain_tail (seen : bool) (s : pystr) : bool :=
  match s with
  | [] => false
  | c :: s' =>
      seen && (c =? 46)%N && tld_ok s' || domain_char c && domain_tail true s'
  end.

(** [re.match] of the address pattern, as a truth value: the local part is
    the longest run of its class, since the at sign is not in the class. *)
Definition email_pattern (s : pystr) : bool :=
  negb (bool_decide ((span local_char s).1 = []))
  && match (span local_char s).2 with
     | c :: rest => (c =? 64)%N && domain_tail false rest
     | [] => false
     end.

(** [is_valid_email(email)] *)
Definition is_valid_email (email : pystr) : bool := email_pattern (strip email).

(** [str.lower]: the table of the Unicode database is taken as given for a
    string with a character outside ASCII. *)
Class CaseDB := {
  uni_lower : pystr -> pystr
}.

Definition ascii_lower (c : char) : char :=
  if ((65 <=? c) && (c <=? 90))%N then (c + 32)%N else c.

(** A decoded JSON value: what the allowlist file holds. An object keeps
    its members in the order of the text; a number is kept as it is
    written. *)
#[local] Set Warnings "-register-all".
Inductive json :=
  | JNull
  | JBool (b : bool)
  | JNumber (shown : pystr)
  | JString (s : pystr)
  | JArray (items : list json)
  | JObject (members : list (pystr * json)).

(** A method of [str] called on a JSON value. *)
Definition json_str (v : json) : result pystr :=
  match v with
  | JString s => Ok s
  | _ => Err AttributeError
  end.

(** [s in items] for a string [s]. *)
Definition is_the_string (s : pystr) (v : json) : bool :=
  match v with
  | JString t => bool_decide (t = s)
  | _ => false
  end.

Definition str_in (s : pystr) (items : list json) : bool :=
  existsb (is_the_string s) items.

(** [data.get(key)] on a decoded object: the last member of that name. *)
Fixpoint obj_get (key : pystr) (members : list (pystr * json)) : option json :=
  match members with
  | [] => None
  | (k, v) :: members' =>
      match obj_get key members' with
      | Some v' => Some v'
      | None => if bool_decide (k = key) then Some v else None
      end
  end.

(** The allowlist file: not there, there but not readable as text, or its
    text. *)
Inductive file_state :=
  | FileMissing
  | FileUnreadable
  | FileText (text : pystr).

(** The [json] module. *)
Class JsonLib := {
  json_loads : pystr -> option json;   (* None: JSONDecodeError *)
  json_dumps : json -> pystr           (* json.dumps(value, indent=2) *)
}.

Section Access.
Context {C : CaseDB} {J : JsonLib}.

Definition lower (s : pystr) : pystr :=
  if forallb (fun c => (c <? 128)%N) s then map ascii_lower s else uni_lower s.

(** [is_ssa_admin(email)] *)
Definition is_ssa_admin (email : pystr) : bool :=
  endswith SSA_ADMIN_DOMAIN (lower (strip email)).

(** [any(e.endswith(d.strip().lower()) for d in domains)] with [e] the
    address trimmed and in lower case: the entries are tried in order until
    one matches. *)
Fixpoint any_suffix (e : pystr) (domains : list json) : result bool :=
  match domains with
  | [] => Ok false
  | d :: domains' =>
      s ← json_str d;
      if endswith (lower (strip s)) e then Ok true else any_suffix e domains'
  end.

(** [is_allowed_domain(email)], with the list of the session. *)
Definition is_allowed_domain (domains : list json) (email : pystr) : result bool :=
  any_suffix (lower (strip email)) domains.

(** [_load_domains()]: every exception is swallowed. *)
Definition _load_domains (file : file_state) : list json :=
  match file with
  | FileText text =>
      match json_loads text with
      | Some (JObject members) =>
          match default (JArray []) (obj_get (lit "domains") members) with
          | JArray (d :: ds) =>
              if str_in SSA_ADMIN_DOMAIN (d :: ds) then d :: ds
              else JString SSA_ADMIN_DOMAIN :: d :: ds
          | _ => [JString SSA_ADMIN_DOMAIN]
          end
      | _ => [JString SSA_ADMIN_DOMAIN]
      end
  | _ => [JString SSA_ADMIN_DOMAIN]
  end.

(** [_save_domains(domains)]: the list as the call leaves it, and the file
    it writes. *)
Definition _save_domains (domains : list json) : list json * file_state :=
  let domains :=
    if str_in SSA_ADMIN_DOMAIN domains then domains
    else JString SSA_ADMIN_DOMAIN :: domains in
  (domains, FileText (json_dumps (JObject [(lit "domains", JArray domains)]))).

End Access.

(** ** The API key *)

Definition quote_char (c : char) : bool := existsb (N.eqb c) [34; 39; 96]%N.

Definition printable (c : char) : bool := ((32 <=? c) && (c <=? 126))%N.

Fixpoint lstrip_chars (f : char -> bool) (s : pystr) : pystr :=
  match s with
  | c :: s' => if f c then lstrip_chars f s' else s
  | [] => []
  end.

(** [s.strip(chars)] *)
Definition strip_chars (f : char -> bool) (s : pystr) : pystr :=
  rev (lstrip_chars f (rev (lstrip_chars f s))).

(** [_sanitize_key(key)] *)
Definition _sanitize_key (key : pystr) : pystr :=
  let k := List.filter (fun c => negb (isspace c)) key in
  let k := strip_chars quote_char k in
  List.filter printable k.

(** ** The call to the AI provider *)

Inductive provider := Claude | ChatGPT | Gemini | Copilot.

(** The exceptions [call_ai_agent] ends with: its own [ValueError]s, told
    apart by what they report, and whatever an import or a client raises. *)
Inductive call_error :=
  | KeyRequired
  | KeyFormat (p : provider)
  | UnknownAgent (agent : pystr)
  | NotJson (raw : pystr)
  | ProviderFailed (msg : pystr).

Inductive outcome (A : Type) :=
  | Returned (a : A)
  | Raised (e : call_error).
Arguments Returned {A} a.
Arguments Raised {A} e.

(** The client libraries: whether the import of a provider's module fails,
    and the text of the reply to a request (or the exception of the client,
    or of reading the text of the reply). *)
Class Providers := {
  provider_import : provider -> option pystr;
  provider_reply : provider -> pystr -> pystr -> pystr -> pystr + pystr
}.

Definition FENCE : pystr := [96; 96; 96]%N.

(** [re.sub] of an opening fence, with its optional word json and the white
    space after it, at the start of the string. *)
Definition sub_opening_fence (s : pystr) : pystr :=
  if startswith FENCE s then
    let rest := skipn 3 s in
    lstrip (if startswith (lit "json") rest then skipn 4 rest else rest)
  else s.

(** A match of white space, a fence and the anchor [$] at the start of [s]:
    what the anchor leaves unread. *)
Definition closing_fence_here (s : pystr) : option pystr :=
  if startswith FENCE (lstrip s) then
    if at_end (skipn 3 (lstrip s)) then Some (skipn 3 (lstrip s)) else None
  else None.

(** [re.sub] of a closing fence: the leftmost match is removed; after it
    nothing is left to match. *)
Fixpoint sub_closing_fence (s : pystr) : pystr :=
  match closing_fence_here s with
  | Some tail => tail
  | None =>
      match s with
      | [] => []
      | c :: s' => c :: sub_closing_fence s'
      end
  end.

(** The two substitutions on the reply. *)
Definition strip_fences (raw : pystr) : pystr :=
  sub_closing_fence (sub_opening_fence (strip raw)).

Section Call.
Context {C : CaseDB} {J : JsonLib} {P : Providers}.

(** The branch of the [if] chain on the agent name. *)
Definition route (agent : pystr) : option provider :=
  let agent_lower := lower agent in
  if contains (lit "claude") agent_lower then Some Claude
  else if contains (lit "chatgpt") agent_lower then Some ChatGPT
  else if contains (lit "gemini") agent_lower then Some Gemini
  else if contains (lit "copilot") agent_lower then Some Copilot
  else None.

Definition key_format_ok (p : provider) (clean_key : pystr) : bool :=
  match p with
  | Claude => startswith (lit "sk-ant-") clean_key
  | ChatGPT => startswith (lit "sk-") clean_key
  | Gemini => true
  | Copilot => startswith (lit "ghp_") clean_key || startswith (lit "github_pat_") clean_key
  end.

Definition import_module (p : provider) : outcome unit :=
  match provider_import p with
  | Some msg => Raised (ProviderFailed msg)
  | None => Returned tt
  end.

Definition check_key (p : provider) (clean_key : pystr) : outcome unit :=
  if key_format_ok p clean_key then Returned tt else Raised (KeyFormat p).

(** The reply of the provider, trimmed. For Copilot the key is checked
    before the module is imported, for the others after. *)
Definition fetch (p : provider) (clean_key system_message user_message : pystr)
    : outcome pystr :=
  let ask :=
    match provider_reply p clean_key system_message user_message with
    | inl text => Returned (strip text)
    | inr msg => Raised (ProviderFailed msg)
    end in
  let first := match p with Copilot => check_key p clean_key | _ => import_module p end in
  let second := match p with Copilot => import_module p | _ => check_key p clean_key end in
  match first with
  | Raised e => Raised e
  | Returned _ =>
      match second with
      | Raised e => Raised e
      | Returned _ => ask
      end
  end.

(** [call_ai_agent(user_message, system_message, agent, key)] *)
Definition call_ai_agent (user_message system_message agent key : pystr) : outcome json :=
  if bool_decide (key = []) || bool_decide (strip key = []) then Raised KeyRequired
  else
    let clean_key := _sanitize_key key in
    match route agent with
    | None => Raised (UnknownAgent agent)
    | Some p =>
        match fetch p clean_key system_message user_message with
        | Raised e => Raised e
        | Returned raw =>
            let raw := strip_fences raw in
            match json_loads raw with
            | Some v => Returned v
            | None => Raised (NotJson raw)
            end
        end
    end.

End Call.

(** * The vocabulary of the properties *)

Section Vocabulary.
Context {U : UnicodeDB} {L : DocxLib}.



(** What [_set_cell_text] leaves of a cell: its children other than
    paragraphs. *)
Definition kept_children (c : cell) : cell :=
  List.filter (fun ch => negb (is_TcP ch)) c.



(** The field under [key] written into the cell [target]. *)
Definition write_field (data : gmap string pyval) (cells : gmap nat cell)
    (target : nat) (key : string) : result (gmap nat cell) :=
  c ← _set_cell_text (cell_at cells target) (dict_get data key (PStr [])) false;
  Ok (<[target := c]> cells).







(** The text below the children of a cell that are not paragraphs. *)
Definition kept_text (c : cell) : pystr :=
  concat (flat_map child_texts (kept_children c)).

(** The tag of an attached-template reference. *)
Definition has_attached_template (tag : pystr) : bool :=
  contains py:"attachedTemplate" tag.


Definition is_str_or_absent (p : gmap string pyval) (key : string) : bool :=
  match p !! key with
  | Some (PStr _) | None => true
  | Some _ => false
  end.





(** The string a field holds, its default when the field is missing. *)
Definition str_field (p : gmap string pyval) (key : string) (dflt : pystr) : pystr :=
  match dict_get p key (PStr dflt) with
  | PStr s => s
  | _ => dflt
  end.









(** ** The vocabulary of the further properties *)

Context {C : CaseDB} {J : JsonLib} {P : Providers}.


(** The paragraph [_set_cell_text] makes of an empty line. *)
Definition empty_paragraph (bold : bool) : paragraph :=
  Paragraph None (Some 0%N) (Some 240%N) None None (Some bold) [].

(** A text node of a header that shows nothing. *)
Definition blank (t : pystr) : Prop := strip t = [].

(** A body element that is a table. *)
Definition is_tbl (e : body_elem) : bool :=
  match e with BTbl _ => true | _ => false end.

(** The value [create_prompt_docx] stores under [attachment_text]. *)
Definition attachment_text (data : gmap string pyval) : pyval :=
  if truthy (dict_get data "attachment_required" PNone)
  then dict_get data "attachment_description" (PStr [])
  else PStr py:"None required".

(** A name without a dot. *)
Definition dotless (s : pystr) : Prop := Forall (fun c => c ≠ 46%N) s.



(** The addresses the pattern of [is_valid_email] accepts: a local part, an
    at sign, a domain, a dot and at least two letters. *)
Definition address_shape (s : pystr) : Prop :=
  ∃ local_part domain tld,
    s = local_part ++ [64%N] ++ domain ++ [46%N] ++ tld
    ∧ local_part ≠ [] ∧ Forall (fun c => local_char c = true) local_part
    ∧ domain ≠ [] ∧ Forall (fun c => domain_char c = true) domain
    ∧ 2 ≤ length tld ∧ Forall (fun c => ascii_letter c = true) tld.

(** A key as [_sanitize_key] leaves it: visible ASCII, no space. *)
Definition key_char (c : char) : bool := ((33 <=? c) && (c <=? 126))%N.

(** The JSON library reads back the value it has written. *)
Definition read_back (v : json) : Prop := json_loads (json_dumps v) = Some v.

(** A string that does not end with white space. *)
Definition ends_visibly (s : pystr) : Prop :=
  ∀ t c, s = t ++ [c] → isspace c = false.

(** A string that does not begin with white space. *)
Definition begins_visibly (s : pystr) : Prop :=
  ∀ c t, s = c :: t → isspace c = false.

End Vocabulary.

(** * A small world to run the builder in *)

Module Demo.

(** A cell holding one paragraph with one run of text. *)
Definition text_cell (s : pystr) : cell :=
  [TcOther []; TcP (Paragraph None None None None None None [add_run s])].

(** The layout of the prompt templates: a header row of three cells, five
    content rows whose content cell spans two grid columns. *)
Definition template_table (placeholder : pystr) : table :=
  Table
    [ [0; 1; 2]; [3; 4; 4]; [5; 6; 6]; [7; 8; 8]; [9; 10; 10]; [11; 12; 12] ]%nat
    (list_to_map
       [ (0, text_cell placeholder); (1, text_cell py:"AI Prompt"); (2, text_cell []);
         (3, text_cell py:"E-Mail Message"); (4, text_cell []);
         (5, text_cell py:"Learning Objective"); (6, text_cell []);
         (7, text_cell py:"Demonstrated AI Capability"); (8, text_cell []);
         (9, text_cell py:"Test Response"); (10, text_cell []);
         (11, text_cell py:"Attachment (if required)"); (12, text_cell []) ]%nat).

Definition template (placeholder : pystr) : document :=
  Document [py:"zoom"; py:"attachedTemplate"; py:"defaultTabStop"]
           [[[]; py:"DP##-__ - Prompt Topic"]]
           [BTbl (template_table placeholder); BP plain_paragraph; BSectPr None].

Definition daily_file : bytes := [80; 75; 1]%N.
Definition friday_file : bytes := [80; 75; 2]%N.
Definition saved_file : bytes := [80; 75; 3]%N.

Definition parse (b : bytes) : result document :=
  if bool_decide (b = daily_file) then Ok (template py:"DP##-__")
  else if bool_decide (b = friday_file) then Ok (template py:"FP##-__")
  else if bool_decide (b = saved_file) then
    Ok (Document [] [] [BP plain_paragraph; BOther py:"bookmarkStart"; BSectPr None])
  else Err (DocxError py:"File is not a zip file").

#[export] Instance tables : UnicodeDB := ascii_tables.

#[export] Instance lib : DocxLib :=
  {| docx_parse := parse;
     docx_save := fun _ => saved_file;
     docx_default := Document [] [] [BSectPr None];
     template_file := fun name =>
       if String.eqb name "Daily_Prompt_Template.docx" then Some daily_file
       else if String.eqb name "Friday_Prompt_Template.docx" then Some friday_file
       else None |}.

(** The same library in a directory without templates. *)
Definition lib_no_templates : DocxLib :=
  {| docx_parse := parse;
     docx_save := fun _ => saved_file;
     docx_default := Document [] [] [BSectPr None];
     template_file := fun _ => None |}.

Definition record1 : gmap string pyval :=
  list_to_map
    [ ("prompt_id", PStr py:"DP01"); ("ai_prompt", PStr py:"Summarize this report.");
      ("attachment_required", PBool false);
      ("demonstrated_ai_capability", PStr py:"Summarization");
      ("email_message", PStr py:"Hi team...");
      ("learning_objective", PStr py:"Learn to summarize.");
      ("test_response", PStr py:"Here is a summary...") ]%string.


(** A record as the generator is asked to write it. *)
Definition demo_record (pid : pystr) (required : bool) (filename content : pystr)
    : gmap string pyval :=
  <["prompt_id"%string := PStr pid]>
    (<["attachment_required"%string := PBool required]>
       (<["attachment_filename"%string := PStr filename]>
          (<["attachment_content"%string := PStr content]>
             (<["attachment_description"%string := PStr py:"Quarterly figures"]> record1)))).

(** The daily template filled from the first record, without attachment. *)
Definition demo_built : result (gmap string pyval * document) :=
  Eval vm_compute in build_prompt_document record1 false [] [] None PNone.

Definition demo_data : gmap string pyval :=
  match demo_built with Ok out => out.1 | Err _ => ∅ end.

Definition demo_doc : document :=
  match demo_built with Ok out => out.2 | Err _ => docx_default end.



(** ** The helpers around the builder *)

(** Lower case as far as ASCII goes. *)
#[export] Instance cases : CaseDB := {| uni_lower := map ascii_lower |}.

(** A small JSON library: texts without escapes in strings, numbers of
    digits only. *)
Fixpoint sep_by (sep : pystr) (parts : list pystr) : pystr :=
  match parts with
  | [] => []
  | [p] => p
  | p :: parts' => p ++ sep ++ sep_by sep parts'
  end.

Fixpoint dumps (v : json) : pystr :=
  match v with
  | JNull => py:"null"
  | JBool b => if b then py:"true" else py:"false"
  | JNumber shown => shown
  | JString s => [34%N] ++ s ++ [34%N]
  | JArray items => py:"[" ++ sep_by py:", " (map dumps items) ++ py:"]"
  | JObject members =>
      py:"{"
      ++ sep_by py:", "
           (map (fun kv => [34%N] ++ fst kv ++ [34%N] ++ py:": " ++ dumps (snd kv)) members)
      ++ py:"}"
  end.

Fixpoint loads_value (fuel : nat) (s : pystr) : option (json * pystr) :=
  match fuel with
  | O => None
  | S fuel =>
      let s := lstrip s in
      if startswith py:"null" s then Some (JNull, skipn 4 s)
      else if startswith py:"true" s then Some (JBool true, skipn 4 s)
      else if startswith py:"false" s then Some (JBool false, skipn 5 s)
      else
        match s with
        | [] => None
        | c :: r =>
            if (c =? 34)%N then
              match span (fun c => negb (c =? 34)%N) r with
              | (str, _ :: rest) => Some (JString str, rest)
              | _ => None
              end
            else if (c =? 91)%N then
              if startswith py:"]" (lstrip r) then Some (JArray [], skipn 1 (lstrip r))
              else loads_items fuel r []
            else if (c =? 123)%N then
              if startswith py:"}" (lstrip r) then Some (JObject [], skipn 1 (lstrip r))
              else loads_members fuel r []
            else if ascii_digit c then
              Some (JNumber (span ascii_digit s).1, (span ascii_digit s).2)
            else None
        end
  end
with loads_items (fuel : nat) (s : pystr) (read : list json) : option (json * pystr) :=
  match fuel with
  | O => None
  | S fuel =>
      match loads_value fuel s with
      | Some (v, rest) =>
          match lstrip rest with
          | c :: rest' =>
              if (c =? 44)%N then loads_items fuel rest' (read ++ [v])
              else if (c =? 93)%N then Some (JArray (read ++ [v]), rest')
              else None
          | [] => None
          end
      | None => None
      end
  end
with loads_members (fuel : nat) (s : pystr) (read : list (pystr * json))
    : option (json * pystr) :=
  match fuel with
  | O => None
  | S fuel =>
      match loads_value fuel s with
      | Some (JString k, rest) =>
          match lstrip rest with
          | c :: rest' =>
              if (c =? 58)%N then
                match loads_value fuel rest' with
                | Some (v, rest) =>
                    match lstrip rest with
                    | c :: rest' =>
                        if (c =? 44)%N then loads_members fuel rest' (read ++ [(k, v)])
                        else if (c =? 125)%N then Some (JObject (read ++ [(k, v)]), rest')
                        else None
                    | [] => None
                    end
                | None => None
                end
              else None
          | [] => None
          end
      | _ => None
      end
  end.

Definition loads (text : pystr) : option json :=
  match loads_value (2 * length text + 2) text with
  | Some (v, rest) => if bool_decide (lstrip rest = []) then Some v else None
  | None => None
  end.

#[export] Instance json_lib : JsonLib := {| json_loads := loads; json_dumps := dumps |}.

(** A reply in a code fence, as the providers give it. *)
Definition demo_body : pystr := py:"[1, 2]".

Definition demo_reply : pystr :=
  py:"  " ++ FENCE ++ py:"json" ++ [NL] ++ demo_body ++ [NL] ++ FENCE ++ [NL].

(** Providers whose modules are installed and that answer every request with
    the same reply. *)
#[export] Instance providers : Providers :=
  {| provider_import := fun _ => None;
     provider_reply := fun _ _ _ _ => inl demo_reply |}.

Definition demo_key : pystr := py:"sk-ant-api03-demo".

(** A cell of the template after a first write. *)
Definition demo_written : cell :=
  Eval vm_compute in
    match _set_cell_text (text_cell py:"old") (PStr py:"first") false with
    | Ok c => c
    | Err _ => []
    end.

(** A record with an attachment, and what it adds to the archive. *)
Definition demo_attached : gmap string pyval :=
  demo_record py:"DP02" true py:"Figures.xlsx" (py:" Q1: 10" ++ [NL] ++ py:"Q2: 12 ").

Definition demo_entries : list (pystr * bytes) :=
  Eval vm_compute in
    match zip_record demo_attached false [] [] with
    | Ok entries => entries
    | Err _ => []
    end.

Definition demo_main : pystr * bytes := nth 0 demo_entries ([], []).
Definition demo_standalone : pystr * bytes := nth 1 demo_entries ([], []).

(** An allowlist with a foreign domain. *)
Definition demo_domains : list json := [JString py:"@example.org"].

End Demo.

(** * Properties *)

#[local] Set Warnings "-clear-no-such-hyp".

(** ** Strings *)

Lemma startswith_spec p s : startswith p s = true ↔ ∃ t, s = p ++ t.
Proof.
  revert s. induction p as [|a p IH]; intros s; simpl.
  - split; [eauto | done].
  - destruct s as [|b s]; simpl.
    + split; [done | intros [t Ht]; discriminate].
    + rewrite andb_true_iff, N.eqb_eq, IH. split.
      * intros [-> [t ->]]. eauto.
      * intros [t Ht]. injection Ht as -> ->. eauto.
Qed.


Lemma split_on_nonempty sep s : split_on sep s ≠ [].
Proof.
  destruct s as [|c s]; simpl; [done|].
  destruct (c =? sep)%N; [done|]. destruct (split_on sep s); done.
Qed.



Lemma lstrip_suffix s : ∃ ws, s = ws ++ lstrip s ∧ Forall (fun c => isspace c = true) ws.
Proof.
  induction s as [|c s (ws & Hs & Hws)]; simpl.
  - exists []. done.
  - destruct (isspace c) eqn:Hc.
    + exists (c :: ws). split; [simpl; congruence | by constructor].
    + exists []. done.
Qed.

Lemma rstrip_prefix s : ∃ ws, s = rstrip s ++ ws ∧ Forall (fun c => isspace c = true) ws.
Proof.
  unfold rstrip. destruct (lstrip_suffix (rev s)) as (ws & Hs & Hws).
  exists (rev ws). split.
  - rewrite <- (rev_involutive s) at 1. rewrite Hs at 1. apply rev_app_distr.
  - apply Forall_forall. intros c Hc. rewrite Forall_forall in Hws.
    apply Hws. apply list_elem_of_In. apply list_elem_of_In in Hc. by apply in_rev.
Qed.

(** ** De-duplication of merged cells *)

Lemma unique_cells_from_elem seen cells c :
  c ∈ unique_cells_from seen cells ↔ c ∈ cells ∧ c ∉ seen.
Proof.
  revert seen. induction cells as [|d cells IH]; intros seen; simpl.
  - set_solver.
  - destruct (decide (d ∈ seen)).
    + rewrite IH. set_solver.
    + rewrite elem_of_cons, IH. destruct (decide (c = d)); set_solver.
Qed.

Lemma unique_cells_from_NoDup seen cells : NoDup (unique_cells_from seen cells).
Proof.
  revert seen. induction cells as [|d cells IH]; intros seen; simpl.
  - constructor.
  - destruct (decide (d ∈ seen)); [apply IH|].
    constructor; [|apply IH]. rewrite unique_cells_from_elem. set_solver.
Qed.

(** The de-duplicated row has no cell twice and holds exactly the cells of
    the row. *)
Lemma unique_cells_NoDup row : NoDup (_unique_cells row).
Proof. apply unique_cells_from_NoDup. Qed.

Lemma unique_cells_elem row c : c ∈ _unique_cells row ↔ c ∈ row.
Proof. unfold _unique_cells. rewrite unique_cells_from_elem. set_solver. Qed.

(** ** Writing a cell *)

(** Steps of the exception monad, without touching the literals. *)
Ltac rsimpl :=
  cbn [mbind result_bind mret result_ret fmap result_fmap as_str] in *.

Section Properties.
Context {U : UnicodeDB} {L : DocxLib}.










(** ** The header row *)


(** ** Content rows *)

Lemma fill_label_find data cells ucells left_text labels :
  fill_label data cells ucells left_text labels =
  if (1 <? length ucells)%nat then
    match List.find (fun entry => contains (fst entry) left_text) labels with
    | Some (_, key) => write_field data cells (List.last ucells 0%nat) key
    | None => Ok cells
    end
  else Ok cells.
Proof.
  induction labels as [|[label key] labels IH]; simpl.
  - by destruct (1 <? length ucells)%nat.
  - rewrite IH. destruct (1 <? length ucells)%nat.
    + destruct (contains label left_text); simpl; done.
    + by rewrite andb_false_r.
Qed.


(** ** Splitting a line on its bold spans *)
































(** ** Rendering a bold span *)


(** ** Writing a cell and reading it back *)



(** ** The template *)

(** C7. When the template file of the variant is not there, the builder
    raises [FileNotFoundError] whatever the record and the attachment are,
    before the document is even opened, and a batch that holds a record of
    that variant yields no archive. *)
Theorem template_missing_is_fatal (is_friday : bool) :
  template_file (template_name is_friday) = None →
  (∀ data agent industry attachment_bytes attachment_name,
     build_prompt_document data is_friday agent industry attachment_bytes attachment_name
       = Err FileNotFoundError
     ∧ create_prompt_docx data is_friday agent industry attachment_bytes attachment_name
       = Err FileNotFoundError)
  ∧ (∀ prompts is_friday_list agent industry i p,
       prompts !! i = Some p → is_friday_list !! i = Some is_friday →
       is_ok (create_zip prompts is_friday_list agent industry) = false).
Proof.
  intros Hmissing.
  assert (Hbuild : ∀ data agent industry ab an,
    build_prompt_document data is_friday agent industry ab an = Err FileNotFoundError).
  { intros. unfold build_prompt_document. by rewrite Hmissing. }
  assert (Hcreate : ∀ data agent industry ab an,
    create_prompt_docx data is_friday agent industry ab an = Err FileNotFoundError).
  { intros. unfold create_prompt_docx. by rewrite Hbuild. }
  split; [by split|].
  assert (Hrec : ∀ p agent industry, is_ok (zip_record p is_friday agent industry) = false).
  { intros p agent industry. unfold zip_record.
    destruct (strip <$> as_str _) as [topic|]; simpl; [|done].
    destruct (if truthy _ then _ else _) as [att_bytes|]; simpl; [|done].
    destruct (attachment_name_of _ _) as [att_name|]; simpl; [|done].
    by rewrite Hcreate. }
  intros prompts. induction prompts as [|q prompts IH];
    intros flags agent industry i p Hp Hf; [done|].
  destruct flags as [|f flags]; [done|].
  destruct i as [|i]; simpl in Hp, Hf.
  - injection Hp as ->. injection Hf as ->. simpl.
    specialize (Hrec p agent industry).
    by destruct (zip_record p is_friday agent industry).
  - simpl. destruct (zip_record q f agent industry); simpl; [|done].
    specialize (IH flags agent industry i p Hp Hf).
    by destruct (create_zip prompts flags agent industry).
Qed.

Lemma settings_add_paragraph p d : doc_settings (add_paragraph p d) = doc_settings d.
Proof. done. Qed.

Lemma settings_append_attachment ab an d :
  doc_settings (append_attachment ab an d) = doc_settings d.
Proof.
  unfold append_attachment. destruct ab as [b|]; [|done].
  destruct (bytes_truthy (Some b) && truthy an); [|done].
  unfold merge_attachment. destruct (docx_parse b) as [att|e]; simpl; [|done].
  by destruct (body_add_p _ _).
Qed.

(** What [build_prompt_document] does once the template is parsed. *)
Lemma build_prompt_document_inv data f agent industry ab an data' d' :
  build_prompt_document data f agent industry ab an = Ok (data', d') →
  ∃ file doc topic body,
    template_file (template_name f) = Some file
    ∧ docx_parse file = Ok doc
    ∧ as_str (dict_get data "demonstrated_ai_capability" (PStr py:"Prompt")) = Ok topic
    ∧ fill_first_table data' (dict_get data "prompt_id" (PStr py:"DP01")) (doc_body doc) = Ok body
    ∧ d' = append_attachment ab an
             (Document (doc_settings (_fix_template_ref doc))
                (update_headers
                   (py_format (dict_get data "prompt_id" (PStr py:"DP01"))
                    ++ py:" - Prompt Topic - " ++ strip topic)
                   (doc_headers doc))
                body).
Proof.
  unfold build_prompt_document.
  destruct (template_file _) as [file|]; [|done].
  destruct (docx_parse file) as [doc|] eqn:Hparse; rsimpl; [|done].
  destruct (as_str _) as [topic|] eqn:Htopic; rsimpl; [|done].
  destruct (fill_first_table _ _ _) as [body|] eqn:Hfill; rsimpl; [|done].
  intros [= <- <-]. by exists file, doc, topic, body.
Qed.

(** C8. Removing the attached-template reference twice is removing it once;
    afterwards no child of the settings holds it; settings without it are
    left as they are; and every document the builder returns went through
    the step, whatever its template held. *)
Theorem fix_template_ref_idempotent :
  (∀ d, _fix_template_ref (_fix_template_ref d) = _fix_template_ref d)
  ∧ (∀ d, Forall (fun tag => has_attached_template tag = false)
            (doc_settings (_fix_template_ref d)))
  ∧ (∀ d, Forall (fun tag => has_attached_template tag = false) (doc_settings d) →
          _fix_template_ref d = d)
  ∧ (∀ data f agent industry ab an data' d' file doc,
       template_file (template_name f) = Some file → docx_parse file = Ok doc →
       build_prompt_document data f agent industry ab an = Ok (data', d') →
       doc_settings d' = doc_settings (_fix_template_ref doc)).
Proof.
  assert (Hfilter : ∀ l : list pystr,
    Forall (fun tag => has_attached_template tag = false)
      (List.filter (fun tag => negb (contains py:"attachedTemplate" tag)) l)).
  { intros l. apply Forall_forall. intros tag Htag.
    apply list_elem_of_In, filter_In in Htag as [_ Htag].
    by apply negb_true_iff in Htag. }
  assert (Hid : ∀ l : list pystr,
    Forall (fun tag => has_attached_template tag = false) l →
    List.filter (fun tag => negb (contains py:"attachedTemplate" tag)) l = l).
  { induction 1 as [|tag l Htag _ IH]; simpl; [done|].
    unfold has_attached_template in Htag. by rewrite Htag, IH. }
  repeat split.
  - intros d. unfold _fix_template_ref. simpl. f_equal. apply Hid, Hfilter.
  - intros d. apply Hfilter.
  - intros [settings headers body] H. unfold _fix_template_ref. simpl in *.
    f_equal. by apply Hid.
  - intros data f agent industry ab an data' d' file doc Hfile Hparse Hbuild.
    apply build_prompt_document_inv in Hbuild
      as (file' & doc' & topic & body & Hfile' & Hparse' & _ & _ & ->).
    rewrite settings_append_attachment. simpl. congruence.
Qed.

(** ** Records with missing fields *)







(** ** The attachment section *)





(** The attachment is dealt with after everything else, and never raises. *)
Lemma build_with_attachment data f agent industry ab an :
  build_prompt_document data f agent industry ab an =
  (fun out => (out.1, append_attachment ab an out.2))
    <$> build_prompt_document data f agent industry None PNone.
Proof.
  unfold build_prompt_document.
  destruct (template_file _) as [file|]; [|done].
  destruct (docx_parse file) as [doc|]; rsimpl; [|done].
  destruct (dict_get data "demonstrated_ai_capability" _); rsimpl; try done.
  destruct (fill_first_table _ _ _) as [body|]; rsimpl; done.
Qed.


(** ** The packager *)

Lemma dict_get_str_field p key dflt :
  is_str_or_absent p key = true →
  dict_get p key (PStr dflt) = PStr (str_field p key dflt).
Proof.
  unfold is_str_or_absent, str_field, dict_get.
  by destruct (p !! key) as [[]|].
Qed.


Lemma append_attachment_none an d : append_attachment None an d = d.
Proof. done. Qed.

Lemma build_without_bytes data f agent industry an :
  build_prompt_document data f agent industry None an =
  build_prompt_document data f agent industry None PNone.
Proof.
  rewrite build_with_attachment.
  destruct (build_prompt_document data f agent industry None PNone) as [[data' d]|]; done.
Qed.

Lemma generate_attachment_blank p :
  is_str_or_absent p "attachment_content" = true →
  generate_attachment_docx p = Ok None ↔ strip (str_field p "attachment_content" []) = [].
Proof.
  intros Hp. unfold generate_attachment_docx.
  rewrite (dict_get_str_field p "attachment_content" []) by done. rsimpl.
  case_bool_decide as Hblank; [done|]. split; [|done].
  destruct (set_first_margins _ _); rsimpl; done.
Qed.

(** C10. Whatever attachment_required holds, the attachment builder returns
    [None] exactly when attachment_content is missing, empty or blank; a
    record of that kind puts into the archive its main document only, and
    that document is the one built with no attachment at all. *)
Theorem blank_attachment_content (p : gmap string pyval) :
  is_str_or_absent p "attachment_content" = true →
  (generate_attachment_docx p = Ok None
     ↔ strip (str_field p "attachment_content" []) = [])
  ∧ (strip (str_field p "attachment_content" []) = [] →
     ∀ f agent industry entries,
       zip_record p f agent industry = Ok entries →
       ∃ name data' d,
         entries = [(name, docx_save d)]
         ∧ build_prompt_document p f agent industry None PNone = Ok (data', d)).
Proof.
  intros Hp. split; [by apply generate_attachment_blank|].
  intros Hblank f agent industry entries. unfold zip_record.
  destruct (strip <$> as_str _) as [topic|]; rsimpl; [|done].
  assert (Hnone : (if truthy (dict_get p "attachment_required" PNone)
                   then generate_attachment_docx p else Ok None) = Ok None).
  { destruct (truthy _); [|done]. by apply generate_attachment_blank. }
  rewrite Hnone. rsimpl.
  destruct (attachment_name_of _ _) as [att_name|]; rsimpl; [|done].
  unfold create_prompt_docx. rewrite build_without_bytes.
  destruct (build_prompt_document p f agent industry None PNone) as [[data' d]|];
    rsimpl; [|done].
  intros [= <-]. eauto.
Qed.












End Properties.

(** * Further properties of the builder and of the helpers around it *)

Section Coverage.
Context {U : UnicodeDB} {L : DocxLib} {C : CaseDB} {J : JsonLib} {P : Providers}.

(** ** White space at the ends of a string *)

Lemma lstrip_head c t s : lstrip s = c :: t → isspace c = false.
Proof.
  induction s as [|a s IH]; simpl; [done|].
  destruct (isspace a) eqn:Ha; [done|]. by intros [= <- _].
Qed.

Lemma lstrip_fixed c t : isspace c = false → lstrip (c :: t) = c :: t.
Proof. intros H. simpl. by rewrite H. Qed.

Lemma lstrip_app x y :
  lstrip (x ++ y) = if bool_decide (lstrip x = []) then lstrip y else lstrip x ++ y.
Proof.
  induction x as [|a x IH]; simpl; [done|].
  destruct (isspace a); [done|]. by rewrite bool_decide_eq_false_2.
Qed.

Lemma rstrip_last t c s : rstrip s = t ++ [c] → isspace c = false.
Proof.
  unfold rstrip. intros H. apply (f_equal (@rev _)) in H.
  rewrite rev_involutive, rev_app_distr in H. simpl in H. by eapply lstrip_head.
Qed.

Lemma rstrip_fixed t c : isspace c = false → rstrip (t ++ [c]) = t ++ [c].
Proof.
  intros H. unfold rstrip. rewrite rev_app_distr. simpl. rewrite H.
  change (c :: rev t) with (rev [c] ++ rev t). by rewrite <- rev_app_distr, rev_involutive.
Qed.

Lemma rstrip_nil : rstrip [] = [].
Proof. done. Qed.

(** [rstrip] on a string given by its first character. *)
Lemma rstrip_cons a s :
  rstrip (a :: s) =
  if bool_decide (rstrip s = []) then (if isspace a then [] else [a]) else a :: rstrip s.
Proof.
  unfold rstrip. cbn [rev]. rewrite lstrip_app.
  destruct (lstrip (rev s)) as [|b l] eqn:Hl.
  - rewrite !bool_decide_eq_true_2 by done. simpl. by destruct (isspace a).
  - rewrite bool_decide_eq_false_2 by done.
    rewrite bool_decide_eq_false_2.
    + by rewrite rev_app_distr.
    + intros H. apply (f_equal (@length _)) in H. rewrite length_rev in H. done.
Qed.

Lemma strip_head c t s : strip s = c :: t → isspace c = false.
Proof.
  unfold strip. intros H.
  destruct (rstrip_prefix (lstrip s)) as (ws & Hs & _). rewrite H in Hs.
  by eapply lstrip_head.
Qed.

Lemma strip_last t c s : strip s = t ++ [c] → isspace c = false.
Proof. unfold strip. apply rstrip_last. Qed.

Lemma strip_fixed s :
  (∀ c t, s = c :: t → isspace c = false) →
  (∀ t c, s = t ++ [c] → isspace c = false) →
  strip s = s.
Proof.
  intros Hhead Hlast. unfold strip.
  destruct s as [|c t]; [done|].
  rewrite lstrip_fixed by (by eapply Hhead).
  destruct (exists_last (l:=c :: t)) as (init & z & Hz); [done|].
  rewrite Hz. apply rstrip_fixed. by eapply Hlast.
Qed.

Lemma strip_idem s : strip (strip s) = strip s.
Proof.
  apply strip_fixed.
  - intros c t H. by eapply strip_head.
  - intros t c H. by eapply strip_last.
Qed.

(** ** De-duplication, further *)

Lemma unique_cells_from_sublist seen cells : sublist (unique_cells_from seen cells) cells.
Proof.
  revert seen. induction cells as [|c cells IH]; intros seen; simpl; [constructor|].
  destruct (decide (c ∈ seen)); [apply sublist_cons | apply sublist_skip]; apply IH.
Qed.

Lemma unique_cells_from_fresh seen cells :
  NoDup cells → (∀ c, c ∈ cells → c ∉ seen) → unique_cells_from seen cells = cells.
Proof.
  intros Hnd. revert seen. induction Hnd as [|c cells Hc _ IH]; intros seen Hseen; [done|].
  simpl. rewrite decide_False by (apply Hseen; by left). f_equal.
  apply IH. intros d Hd. rewrite elem_of_union, elem_of_singleton.
  intros [-> | Hd']; [done|]. eapply Hseen; [by right | done].
Qed.

(** X1. [_unique_cells] hands out every cell of the row exactly once: the
    result has no cell twice, holds the cells of the row and no other, keeps
    them in the order of the row, and begins with the first cell of the
    row. *)
Theorem unique_cells_once (row : list nat) :
  NoDup (_unique_cells row)
  ∧ (∀ c, c ∈ _unique_cells row ↔ c ∈ row)
  ∧ sublist (_unique_cells row) row
  ∧ head (_unique_cells row) = head row.
Proof.
  split; [apply unique_cells_NoDup|]. split; [apply unique_cells_elem|].
  split; [apply unique_cells_from_sublist|].
  destruct row as [|c row]; [done|]. unfold _unique_cells. simpl.
  by rewrite decide_False by set_solver.
Qed.

(** X2. A row without merged cells comes back as it is, and a row that was
    de-duplicated comes back as it is. *)
Theorem unique_cells_unmerged (row : list nat) :
  (NoDup row → _unique_cells row = row)
  ∧ _unique_cells (_unique_cells row) = _unique_cells row.
Proof.
  assert (H : ∀ r, NoDup r → _unique_cells r = r).
  { intros r Hr. apply unique_cells_from_fresh; [done | set_solver]. }
  split; [apply H | apply H, unique_cells_NoDup].
Qed.

(** ** Writing a cell, further *)

Lemma kept_children_written c lines bold :
  kept_children (kept_children c ++ map (fun line => TcP (cell_paragraph bold line)) lines)
  = kept_children c.
Proof.
  unfold kept_children. rewrite List.filter_app.
  replace (List.filter _ (map _ lines)) with (@nil tc_child).
  - rewrite app_nil_r. induction c as [|ch c IH]; simpl; [done|].
    destruct (negb (is_TcP ch)) eqn:Hch; simpl; [rewrite Hch|]; by rewrite ?IH.
  - induction lines as [|line lines IH]; simpl; done.
Qed.

Lemma set_cell_text_shape c v bold c' :
  _set_cell_text c v bold = Ok c' →
  ∃ lines, cell_lines v = Ok lines
           ∧ c' = kept_children c ++ map (fun line => TcP (cell_paragraph bold line)) lines.
Proof.
  unfold _set_cell_text. destruct (cell_lines v) as [lines|]; rsimpl; [|done].
  intros [= <-]. eauto.
Qed.

(** X3. The last write wins: text written over a cell that was written
    before leaves the cell as if only the last text had been written; what
    the cell holds besides paragraphs is kept through both. *)
Theorem set_cell_text_overwrites (c c1 : cell) (v1 v2 : pyval) (bold1 bold2 : bool) :
  _set_cell_text c v1 bold1 = Ok c1 →
  _set_cell_text c1 v2 bold2 = _set_cell_text c v2 bold2
  ∧ kept_children c1 = kept_children c.
Proof.
  intros H1. apply set_cell_text_shape in H1 as (lines & _ & ->).
  pose proof (kept_children_written c lines bold1) as Hk. split; [|done].
  unfold _set_cell_text. fold (kept_children c) in *.
  fold (kept_children (kept_children c ++ map (fun line => TcP (cell_paragraph bold1 line)) lines)).
  by rewrite Hk.
Qed.




(** X5. A value that is not truthy (the empty string, null, false, zero)
    blanks the cell: one paragraph without runs is all that is written, and
    the cell reads back as the text of what it keeps. *)
Theorem set_cell_text_falsy (c : cell) (v : pyval) (bold : bool) :
  truthy v = false →
  _set_cell_text c v bold = Ok (kept_children c ++ [TcP (empty_paragraph bold)])
  ∧ _get_cell_text (kept_children c ++ [TcP (empty_paragraph bold)]) = strip (kept_text c).
Proof.
  intros Hv. split.
  - unfold _set_cell_text, cell_lines. rewrite Hv. rsimpl. done.
  - unfold _get_cell_text, kept_text. rewrite flat_map_app. simpl.
    by rewrite concat_app, !app_nil_r.
Qed.


(** X7. The text read from a cell is trimmed: it neither begins nor ends
    with white space, and trimming it again changes nothing. *)
Theorem get_cell_text_trimmed (c : cell) :
  (∀ ch t, _get_cell_text c = ch :: t → isspace ch = false)
  ∧ (∀ t ch, _get_cell_text c = t ++ [ch] → isspace ch = false)
  ∧ strip (_get_cell_text c) = _get_cell_text c.
Proof.
  unfold _get_cell_text. split; [|split].
  - intros ch t. apply strip_head.
  - intros t ch. apply strip_last.
  - apply strip_idem.
Qed.

(** ** Bullet lines *)

Lemma rstrip_marker a t :
  isspace a = false → rstrip t ≠ [] →
  rstrip (a :: 32%N :: t) = a :: 32%N :: rstrip t.
Proof.
  intros Ha Ht. rewrite rstrip_cons. rewrite rstrip_cons.
  rewrite (bool_decide_eq_false_2 (rstrip t = [])) by done.
  by rewrite bool_decide_eq_false_2.
Qed.

Lemma rstrip_bare_marker a t :
  isspace a = false → rstrip t = [] → rstrip (a :: 32%N :: t) = [a].
Proof.
  intros Ha Ht. rewrite rstrip_cons. rewrite rstrip_cons.
  rewrite (bool_decide_eq_true_2 (rstrip t = [])) by done.
  change (isspace 32%N) with true. cbv iota.
  rewrite bool_decide_eq_true_2 by done. by rewrite Ha.
Qed.

Lemma lstrip_spaces ws s :
  Forall (fun c => isspace c = true) ws → lstrip (ws ++ s) = lstrip s.
Proof. induction 1 as [|c ws Hc _ IH]; simpl; [done|]. by rewrite Hc. Qed.

(** X8. A bullet line is shown with the bullet sign whichever marker it was
    typed with, a hyphen or a bullet sign, and whatever white space stands
    before the marker or after the text; a marker with nothing after it is
    not a bullet line and is shown as typed. *)
Theorem bullet_marker_normalized (ws t : pystr) (marker : char) :
  marker = 45%N ∨ marker = BULLET →
  Forall (fun c => isspace c = true) ws →
  (rstrip t ≠ [] →
   display_line (ws ++ marker :: 32%N :: t) = BULLET :: 32%N :: rstrip t)
  ∧ (rstrip t = [] →
     display_line (ws ++ marker :: 32%N :: t) = ws ++ marker :: 32%N :: t).
Proof.
  intros Hm Hws.
  assert (Hsp : isspace marker = false) by (by destruct Hm as [-> | ->]).
  assert (Hl : lstrip (ws ++ marker :: 32%N :: t) = marker :: 32%N :: t).
  { rewrite lstrip_spaces by done. by apply lstrip_fixed. }
  split; intros Ht; unfold display_line, strip; rewrite Hl.
  - rewrite rstrip_marker by done.
    assert (Hb : is_bullet (marker :: 32%N :: rstrip t) = true).
    { unfold is_bullet. by destruct Hm as [-> | ->]. }
    by rewrite Hb.
  - rewrite rstrip_bare_marker by done.
    assert (Hb : is_bullet [marker] = false).
    { unfold is_bullet. by destruct Hm as [-> | ->]. }
    assert (Hn : is_numbered [marker] = false).
    { unfold is_numbered, re_match_numbered. simpl. apply andb_false_r. }
    by rewrite Hb, Hn.
Qed.

(** ** The running header *)

Lemma replace_first_text_none f ts :
  replace_first_text f ts = None ↔ Forall blank ts.
Proof.
  induction ts as [|t ts IH]; simpl; [by split; [constructor|]|].
  case_bool_decide as Ht.
  - destruct (replace_first_text f ts); simpl.
    + split; [done|]. intros H. inversion_clear H as [|? ? _ H1]. by apply IH in H1.
    + split; [|done]. intros _. constructor; [done|]. by apply IH.
  - split; [done|]. intros H. by inversion_clear H.
Qed.

Lemma replace_first_text_some f ts ts' :
  replace_first_text f ts = Some ts' →
  ∃ before t after, ts = before ++ t :: after ∧ Forall blank before ∧ ¬ blank t
                    ∧ ts' = before ++ f :: after.
Proof.
  revert ts'. induction ts as [|t ts IH]; intros ts'; simpl; [done|].
  case_bool_decide as Ht.
  - destruct (replace_first_text f ts) as [r|]; simpl; [|done].
    intros [= <-]. destruct (IH r eq_refl) as (before & t0 & after & -> & Hb & Ht0 & ->).
    exists (t :: before), t0, after. repeat split; try done; try by constructor.
  - intros [= <-]. exists [], t, ts. repeat split; try done; try by constructor.
Qed.

Lemma replace_first_text_at f before t after :
  Forall blank before → ¬ blank t →
  replace_first_text f (before ++ t :: after) = Some (before ++ f :: after).
Proof.
  intros Hb Ht. induction Hb as [|b before Hb _ IH]; simpl.
  - by rewrite bool_decide_eq_false_2.
  - rewrite bool_decide_eq_true_2 by done. by rewrite IH.
Qed.

Lemma update_headers_blank f hs :
  Forall (Forall blank) hs → update_headers f hs = hs.
Proof.
  induction 1 as [|h hs Hh _ IH]; simpl; [done|].
  by rewrite (proj2 (replace_first_text_none f h) Hh), IH.
Qed.

Lemma update_headers_at f parts before t after rest :
  Forall (Forall blank) parts → Forall blank before → ¬ blank t →
  update_headers f (parts ++ (before ++ t :: after) :: rest)
  = parts ++ (before ++ f :: after) :: rest.
Proof.
  intros Hparts Hb Ht. induction Hparts as [|h parts Hh _ IH]; simpl.
  - by rewrite replace_first_text_at.
  - by rewrite (proj2 (replace_first_text_none f h) Hh), IH.
Qed.

Lemma update_headers_cases (hs : list (list pystr)) :
  Forall (Forall blank) hs
  ∨ ∃ parts before t after rest,
      hs = parts ++ (before ++ t :: after) :: rest
      ∧ Forall (Forall blank) parts ∧ Forall blank before ∧ ¬ blank t.
Proof.
  induction hs as [|h hs IH]; [left; constructor|].
  destruct (replace_first_text [] h) as [h'|] eqn:Hh.
  - right. apply replace_first_text_some in Hh as (before & t & after & -> & Hb & Ht & _).
    exists [], before, t, after, hs. repeat split; try done; try by constructor.
  - apply replace_first_text_none in Hh.
    destruct IH as [Hall | (parts & before & t & after & rest & -> & Hp & Hb & Ht)].
    + left. by constructor.
    + right. exists (h :: parts), before, t, after, rest.
      repeat split; try done; try by constructor.
Qed.

(** X9. [_update_header_filename] overwrites one text node and nothing
    else: the first one, over the header parts in order, whose text is not
    blank. Headers whose text nodes are all blank are left as they are;
    settings and body are never touched. *)
Theorem header_update_first_text (d : document) (filename : pystr) :
  doc_settings (_update_header_filename d filename) = doc_settings d
  ∧ doc_body (_update_header_filename d filename) = doc_body d
  ∧ ((Forall (Forall blank) (doc_headers d)
      ∧ _update_header_filename d filename = d)
     ∨ ∃ parts before t after rest,
         doc_headers d = parts ++ (before ++ t :: after) :: rest
         ∧ Forall (Forall blank) parts ∧ Forall blank before ∧ ¬ blank t
         ∧ doc_headers (_update_header_filename d filename)
           = parts ++ (before ++ filename :: after) :: rest).
Proof.
  split; [done|]. split; [done|].
  destruct (update_headers_cases (doc_headers d))
    as [Hall | (parts & before & t & after & rest & Hd & Hp & Hb & Ht)].
  - left. split; [done|]. unfold _update_header_filename.
    rewrite update_headers_blank by done. by destruct d.
  - right. exists parts, before, t, after, rest. repeat split; try done.
    unfold _update_header_filename. cbn [doc_headers]. rewrite Hd.
    by apply update_headers_at.
Qed.

(** X10. Updating the header twice is updating it with the second name,
    as long as the first name is not blank; so the update with a name that
    is not blank is idempotent. *)
Theorem header_update_last_wins (d : document) (name1 name2 : pystr) :
  ¬ blank name1 →
  _update_header_filename (_update_header_filename d name1) name2
  = _update_header_filename d name2.
Proof.
  intros Hname. unfold _update_header_filename. cbn [doc_settings doc_headers doc_body].
  f_equal.
  destruct (update_headers_cases (doc_headers d))
    as [Hall | (parts & before & t & after & rest & -> & Hp & Hb & Ht)].
  - by rewrite (update_headers_blank name1) by done.
  - by rewrite !update_headers_at.
Qed.

(** ** The table *)

Lemma fill_label_frame data cells ucells left_text labels cells' i :
  fill_label data cells ucells left_text labels = Ok cells' →
  i ∉ ucells → cells' !! i = cells !! i.
Proof.
  rewrite fill_label_find. destruct (1 <? length ucells)%nat eqn:Hlen; [|by intros [= <-]].
  destruct (List.find _ _) as [[label key]|]; [|by intros [= <-]].
  unfold write_field. destruct (_set_cell_text _ _ _) as [c|]; rsimpl; [|done].
  intros [= <-] Hi. rewrite lookup_insert_ne; [done|]. intros <-. apply Hi.
  destruct ucells as [|u ucells]; [done|].
  destruct (exists_last (l:=u :: ucells)) as (init & x & Hx); [done|].
  rewrite Hx, last_last. set_solver.
Qed.

Lemma process_row_frame data pid cells row cells' i :
  process_row data pid cells row = Ok cells' → i ∉ row → cells' !! i = cells !! i.
Proof.
  intros Hrow Hi. assert (Hu : i ∉ _unique_cells row) by (by rewrite unique_cells_elem).
  revert Hrow. unfold process_row.
  destruct (_unique_cells row) as [|u0 rest] eqn:Hrest; [by intros [= <-]|].
  destruct (is_header_text _).
  - destruct (_set_cell_text _ pid true) as [c0|]; rsimpl; [|done].
    destruct (2 <? length (u0 :: rest))%nat eqn:Hlen.
    + destruct (_set_cell_text _ _ false) as [c2|]; rsimpl; [|done].
      intros [= <-]. rewrite !lookup_insert_ne; [done| |].
      * intros <-. apply Hu. by left.
      * intros <-. apply Hu. right. apply list_elem_of_In, nth_In.
        apply Nat.ltb_lt in Hlen. simpl in Hlen. lia.
    + intros [= <-]. rewrite lookup_insert_ne; [done|]. intros <-. apply Hu. by left.
  - intros H. by eapply fill_label_frame.
Qed.

Lemma process_rows_frame data pid rows cells cells' i :
  process_rows data pid cells rows = Ok cells' →
  (∀ row, row ∈ rows → i ∉ row) → cells' !! i = cells !! i.
Proof.
  revert cells. induction rows as [|row rows IH]; intros cells; simpl.
  - by intros [= <-].
  - destruct (process_row data pid cells row) as [cells1|] eqn:Hrow; rsimpl; [|done].
    intros Hrows Hi. rewrite (IH cells1 Hrows) by (intros; apply Hi; by right).
    eapply process_row_frame; [done|]. apply Hi. by left.
Qed.

Lemma fill_first_table_shape data pid body body' :
  fill_first_table data pid body = Ok body' →
  ∃ before t cells' after,
    body = before ++ BTbl t :: after
    ∧ Forall (fun e => is_tbl e = false) before
    ∧ process_rows data pid (tbl_cells t) (tbl_rows t) = Ok cells'
    ∧ body' = before ++ BTbl (Table (tbl_rows t) cells') :: after.
Proof.
  revert body'. induction body as [|e body IH]; intros body'; [done|].
  destruct e as [p|t|m|tag]; simpl.
  2: { unfold fill_table.
       destruct (process_rows _ _ _ _) as [cells'|] eqn:Hrows; rsimpl; [|done].
       intros [= <-]. exists [], t, cells', body. repeat split; try done; try by constructor. }
  all: destruct (fill_first_table data pid body) as [b|]; rsimpl; [|done];
    intros [= <-]; destruct (IH b eq_refl) as (before & t & cells' & after & -> & Hb & Hr & ->);
    eexists (_ :: before), t, cells', after; repeat split; try done; try by constructor.
Qed.

(** X11. Filling the template touches the first table of the body and
    nothing else: the body elements before and after it stay, the rows of
    the table stay, and a cell that no row of the table refers to keeps its
    content. *)
Theorem only_first_table_filled (data : gmap string pyval) (is_friday : bool)
    (agent industry : pystr) (attachment_name : pyval)
    (data' : gmap string pyval) (d' : document) (file : bytes) (doc : document) :
  template_file (template_name is_friday) = Some file →
  docx_parse file = Ok doc →
  build_prompt_document data is_friday agent industry None attachment_name = Ok (data', d') →
  ∃ before t cells' after,
    doc_body doc = before ++ BTbl t :: after
    ∧ Forall (fun e => is_tbl e = false) before
    ∧ doc_body d' = before ++ BTbl (Table (tbl_rows t) cells') :: after
    ∧ ∀ i, (∀ row, row ∈ tbl_rows t → i ∉ row) → cells' !! i = tbl_cells t !! i.
Proof.
  intros Hfile Hparse Hbuild.
  apply build_prompt_document_inv in Hbuild
    as (file' & doc' & topic & body & Hfile' & Hparse' & _ & Hfill & ->).
  assert (doc' = doc) as -> by congruence.
  apply fill_first_table_shape in Hfill as (before & t & cells' & after & Hb & Hbefore & Hrows & ->).
  exists before, t, cells', after. repeat split; try done.
  intros i Hi. by eapply process_rows_frame.
Qed.

(** X12. The builder changes the record it is given in one place: the key
    [attachment_text] is set, to the attachment description when
    attachment_required is truthy and to the words None required when it is
    not; every other key is as before. *)
Theorem record_gets_attachment_text (data : gmap string pyval) (is_friday : bool)
    (agent industry : pystr) (attachment_bytes : option bytes) (attachment_name : pyval)
    (data' : gmap string pyval) (d' : document) :
  build_prompt_document data is_friday agent industry attachment_bytes attachment_name
    = Ok (data', d') →
  data' = <["attachment_text"%string := attachment_text data]> data
  ∧ (truthy (dict_get data "attachment_required" PNone) = false →
     data' !! "attachment_text"%string = Some (PStr py:"None required"))
  ∧ (∀ key, key ≠ "attachment_text"%string → data' !! key = data !! key).
Proof.
  intros Hbuild.
  assert (Hdata : data' = <["attachment_text"%string := attachment_text data]> data).
  { revert Hbuild. unfold build_prompt_document.
    destruct (template_file _) as [file|]; [|done].
    destruct (docx_parse file) as [doc|]; rsimpl; [|done].
    destruct (dict_get data "demonstrated_ai_capability" _); rsimpl; try done.
    destruct (fill_first_table _ _ _) as [body|]; rsimpl; [|done].
    by intros [= <- _]. }
  split; [done|]. subst data'. split.
  - intros Hreq. rewrite lookup_insert_eq. unfold attachment_text. by rewrite Hreq.
  - intros key Hkey. by rewrite lookup_insert_ne.
Qed.

(** ** Batches *)

(** X13. The archive pairs records and flags by position and stops at the
    shorter list: what is beyond it, on either side, is dropped without an
    error. *)
Theorem create_zip_shorter_list (prompts : list (gmap string pyval))
    (is_friday_list : list bool) (agent industry : pystr) :
  create_zip prompts is_friday_list agent industry
  = create_zip (take (length is_friday_list) prompts)
               (take (length prompts) is_friday_list) agent industry.
Proof.
  revert is_friday_list. induction prompts as [|p prompts IH]; intros [|f flags]; try done.
  simpl. by rewrite <- IH.
Qed.

(** X14. A batch packed in one go is the two halves packed one after the
    other: the entries of the first half, then those of the second, and an
    error of either half is the error of the whole. *)
Theorem create_zip_app (prompts1 prompts2 : list (gmap string pyval))
    (flags1 flags2 : list bool) (agent industry : pystr) :
  length prompts1 = length flags1 →
  create_zip (prompts1 ++ prompts2) (flags1 ++ flags2) agent industry
  = (entries1 ← create_zip prompts1 flags1 agent industry;
     entries2 ← create_zip prompts2 flags2 agent industry;
     Ok (entries1 ++ entries2)).
Proof.
  revert flags1. induction prompts1 as [|p prompts1 IH]; intros [|f flags1] Hlen; try done.
  - simpl. by destruct (create_zip prompts2 flags2 agent industry).
  - simpl. destruct (zip_record p f agent industry) as [entries|]; rsimpl; [|done].
    rewrite IH by (simpl in Hlen; lia).
    destruct (create_zip prompts1 flags1 agent industry) as [e1|]; rsimpl; [|done].
    destruct (create_zip prompts2 flags2 agent industry) as [e2|]; rsimpl; [|done].
    by rewrite app_assoc.
Qed.

(** ** The name of the attachment *)

Lemma existsb_dot_dotless s : dotless s → existsb (N.eqb 46) s = false.
Proof.
  induction 1 as [|c s Hc _ IH]; cbn [existsb]; [done|].
  rewrite IH, orb_false_r. apply N.eqb_neq. congruence.
Qed.

Lemma rsplit_dot_head_dotless s : dotless s → rsplit_dot_head s = s.
Proof.
  intros Hs. destruct Hs as [|c s Hc Hs]; cbn [rsplit_dot_head]; [done|].
  rewrite existsb_dot_dotless by done. apply N.eqb_neq in Hc. by rewrite Hc.
Qed.

Lemma rsplit_dot_head_ext stem ext :
  dotless ext → rsplit_dot_head (stem ++ 46%N :: ext) = stem.
Proof.
  intros Hext. induction stem as [|c stem IH]; cbn [rsplit_dot_head app].
  - rewrite existsb_dot_dotless by done. by rewrite N.eqb_refl.
  - rewrite existsb_app. cbn [existsb]. by rewrite N.eqb_refl, orb_true_r, IH.
Qed.

Lemma endswith_app p s : endswith p (s ++ p) = true.
Proof. unfold endswith. rewrite rev_app_distr. apply startswith_spec. eauto. Qed.

(** X15. The attachment is merged and named with a name that ends in
    .docx: a file name that ends so is taken as it is; otherwise what stands
    after its last dot is replaced by docx, and a name without a dot gets
    .docx appended. Without attachment_required there is no name. *)
Theorem attachment_name_ends_in_docx (p : gmap string pyval) (filename : pystr) :
  dict_get p "attachment_filename" (PStr py:"Attachment.docx") = PStr filename →
  filename ≠ [] →
  attachment_name_of p false = Ok PNone
  ∧ ∃ name,
      attachment_name_of p true = Ok (PStr name)
      ∧ endswith py:".docx" name = true
      ∧ (endswith py:".docx" filename = true → name = filename)
      ∧ (endswith py:".docx" filename = false →
         (∀ stem ext, filename = stem ++ 46%N :: ext → dotless ext →
                      name = stem ++ py:".docx")
         ∧ (dotless filename → name = filename ++ py:".docx")).
Proof.
  intros Hfn Hne. split; [done|].
  unfold attachment_name_of. rewrite Hfn.
  assert (Ht : truthy (PStr filename) = true).
  { simpl. by rewrite bool_decide_eq_false_2. }
  rewrite Ht. rsimpl. destruct (endswith py:".docx" filename) eqn:Hend.
  - exists filename. repeat split; done.
  - exists (rsplit_dot_head filename ++ py:".docx"). split; [done|].
    split; [apply endswith_app|]. split; [done|]. intros _. split.
    + intros stem ext -> Hext. by rewrite rsplit_dot_head_ext.
    + intros Hd. by rewrite rsplit_dot_head_dotless.
Qed.

(** ** The name of the standalone attachment *)

Lemma sanitize_clean s : Forall (fun c => path_char c = false) (sanitize s).
Proof.
  unfold sanitize. apply Forall_forall. intros c Hc.
  apply list_elem_of_fmap in Hc as (x & -> & _).
  destruct (path_char x) eqn:Hx; done.
Qed.

Lemma rstrip_length s : length (rstrip s) ≤ length s.
Proof.
  destruct (rstrip_prefix s) as (ws & Hs & _).
  rewrite Hs at 2. rewrite length_app. lia.
Qed.

(** X16. When a record adds a second entry to the archive, its name is the
    prompt id, the words Sample Attachment and a description of at most 50
    characters in which every path character (backslash, slash, colon, star,
    question mark, double quote, angle brackets, bar) has been replaced. *)
Theorem attachment_entry_name_safe (p : gmap string pyval) (f : bool)
    (agent industry : pystr) (main standalone : pystr * bytes) :
  zip_record p f agent industry = Ok [main; standalone] →
  ∃ description,
    standalone.1 = py_format (dict_get p "prompt_id" (PStr py:"P01"))
                   ++ py:" - Sample Attachment - " ++ description ++ py:".docx"
    ∧ length description ≤ 50
    ∧ Forall (fun c => path_char c = false) description.
Proof.
  unfold zip_record.
  destruct (strip <$> as_str _) as [topic|]; rsimpl; [|done].
  destruct (if truthy _ then _ else _) as [att_bytes|]; rsimpl; [|done].
  destruct (attachment_name_of _ _) as [att_name|]; rsimpl; [|done].
  destruct (create_prompt_docx _ _ _ _ _ _) as [[p' doc]|]; rsimpl; [|done].
  destruct att_bytes as [b|]; [|done].
  destruct (bytes_truthy (Some b) && truthy att_name); [|done].
  destruct (dict_get p' "attachment_description" _) as [desc| | |]; rsimpl; try done.
  intros [= _ <-]. eexists. split; [done|]. split; [|apply sanitize_clean].
  unfold sanitize. rewrite length_map.
  destruct (50 <? length (strip desc))%nat eqn:Hlen.
  - etrans; [apply rstrip_length|]. unfold take50. rewrite length_take. lia.
  - apply Nat.ltb_ge in Hlen. done.
Qed.

(** X17. A record adds one or two entries to the archive. The first is the
    main document, named by the prompt id and the trimmed topic. A second one
    is there only when attachment_required is truthy, and it holds the very
    bytes [generate_attachment_docx] returns for the record. *)
Theorem zip_record_entries (p : gmap string pyval) (f : bool)
    (agent industry : pystr) (entries : list (pystr * bytes)) :
  zip_record p f agent industry = Ok entries →
  ∃ topic main,
    as_str (dict_get p "demonstrated_ai_capability" (PStr py:"Prompt")) = Ok topic
    ∧ (entries = [(py_format (dict_get p "prompt_id" (PStr py:"P01"))
                     ++ py:" - " ++ strip topic ++ py:".docx", main)]
       ∨ ∃ name b,
           entries = [(py_format (dict_get p "prompt_id" (PStr py:"P01"))
                         ++ py:" - " ++ strip topic ++ py:".docx", main); (name, b)]
           ∧ truthy (dict_get p "attachment_required" PNone) = true
           ∧ generate_attachment_docx p = Ok (Some b)).
Proof.
  unfold zip_record.
  destruct (as_str _) as [topic|]; rsimpl; [|done].
  destruct (truthy (dict_get p "attachment_required" PNone)) eqn:Hreq.
  - destruct (generate_attachment_docx p) as [att_bytes|]; rsimpl; [|done].
    destruct (attachment_name_of _ _) as [att_name|]; rsimpl; [|done].
    destruct (create_prompt_docx _ _ _ _ _ _) as [[p' doc]|]; rsimpl; [|done].
    destruct att_bytes as [b|]; [|intros [= <-]; eauto].
    destruct (bytes_truthy (Some b) && truthy att_name); [|intros [= <-]; eauto].
    destruct (dict_get p' "attachment_description" _) as [desc| | |]; rsimpl; try done.
    intros [= <-]. exists topic, doc. split; [done|]. right. eauto.
  - rsimpl. destruct (attachment_name_of _ _) as [att_name|]; rsimpl; [|done].
    destruct (create_prompt_docx _ _ _ _ _ _) as [[p' doc]|]; rsimpl; [|done].
    intros [= <-]. eauto.
Qed.

(** ** The attachment document *)





(** X19. White space around attachment_content does not matter: the
    attachment builder gives the same result for a content and for the
    content trimmed. *)
Theorem attachment_content_trimmed (prompt : gmap string pyval) (content : pystr) :
  generate_attachment_docx (<["attachment_content"%string := PStr content]> prompt)
  = generate_attachment_docx (<["attachment_content"%string := PStr (strip content)]> prompt).
Proof.
  unfold generate_attachment_docx, dict_get.
  rewrite !lookup_insert_eq, !lookup_insert_ne by done.
  cbn [from_option id]. rsimpl. by rewrite strip_idem.
Qed.

(** ** Addresses *)

Lemma span_spec f s :
  s = (span f s).1 ++ (span f s).2
  ∧ Forall (fun c => f c = true) (span f s).1
  ∧ ∀ c t, (span f s).2 = c :: t → f c = false.
Proof.
  induction s as [|a s (IH1 & IH2 & IH3)]; cbn [span].
  - by repeat split.
  - destruct (f a) eqn:Ha; cbn [fst snd].
    + split; [simpl; congruence|]. split; [by constructor | done].
    + split; [done|]. split; [constructor|]. by intros c t [= <- _].
Qed.

Lemma span_app f a b :
  Forall (fun c => f c = true) a → (∀ c t, b = c :: t → f c = false) →
  span f (a ++ b) = (a, b).
Proof.
  intros Ha Hb. induction Ha as [|c a Hc _ IH]; cbn [app span].
  - destruct b as [|c t]; [done|]. cbn [span]. by rewrite (Hb c t eq_refl).
  - by rewrite Hc, IH.
Qed.

Lemma at_end_cases s : at_end s = true ↔ s = [] ∨ s = [NL].
Proof.
  destruct s as [|c [|d s]]; cbn [at_end].
  - split; [by left|done].
  - rewrite N.eqb_eq. split; [intros ->; by right | by intros [|[= ->]]].
  - split; [done | by intros [|]].
Qed.

Lemma tld_ok_spec s :
  tld_ok s = true ↔
  ∃ tld rest, s = tld ++ rest ∧ Forall (fun c => ascii_letter c = true) tld
              ∧ 2 ≤ length tld ∧ at_end rest = true.
Proof.
  unfold tld_ok. rewrite andb_true_iff, Nat.leb_le. split.
  - intros [Hlen Hend]. destruct (span_spec ascii_letter s) as (Hs & Hl & _).
    by exists (span ascii_letter s).1, (span ascii_letter s).2.
  - intros (tld & rest & -> & Hl & Hlen & Hend). rewrite span_app; [done|done|].
    intros c t ->. apply at_end_cases in Hend as [|[= -> ->]]; done.
Qed.

Lemma domain_tail_spec seen s :
  domain_tail seen s = true ↔
  ∃ domain tld rest,
    s = domain ++ [46%N] ++ tld ++ rest
    ∧ Forall (fun c => domain_char c = true) domain
    ∧ (seen = true ∨ domain ≠ [])
    ∧ Forall (fun c => ascii_letter c = true) tld
    ∧ 2 ≤ length tld ∧ at_end rest = true.
Proof.
  revert seen. induction s as [|c s IH]; intros seen; cbn [domain_tail].
  - split; [done|]. intros (domain & tld & rest & H & _). by destruct domain.
  - rewrite orb_true_iff, !andb_true_iff, N.eqb_eq, tld_ok_spec, IH. split.
    + intros [[[-> ->] (tld & rest & -> & Hl & Hlen & Hend)]
             | [Hc (domain & tld & rest & -> & Hd & _ & Hl & Hlen & Hend)]].
      * exists [], tld, rest. repeat split; try done; by left.
      * exists (c :: domain), tld, rest. repeat split; try done; [by constructor | by right].
    + intros (domain & tld & rest & Hs & Hd & Hseen & Hl & Hlen & Hend).
      destruct domain as [|d domain].
      * left. destruct Hseen as [->|]; [|done]. injection Hs as -> ->.
        split; [done|]. by exists tld, rest.
      * right. injection Hs as -> ->. inversion_clear Hd as [|? ? Hc Hd'].
        split; [done|]. exists domain, tld, rest. repeat split; try done. by left.
Qed.

(** X20. [is_valid_email] accepts exactly the addresses that, trimmed, are
    a non-empty local part of letters, digits and the signs . _ % + -, an at
    sign, a non-empty domain of letters, digits, dots and hyphens, a dot and
    at least two letters. *)
Theorem valid_email_shape (email : pystr) :
  is_valid_email email = true ↔ address_shape (strip email).
Proof.
  unfold is_valid_email, email_pattern, address_shape.
  destruct (span_spec local_char (strip email)) as (Hs & Hl & Hnext).
  rewrite andb_true_iff, negb_true_iff. split.
  - intros [Hne Hrest]. apply bool_decide_eq_false in Hne.
    destruct (span local_char (strip email)).2 as [|c rest] eqn:Hr; [done|].
    apply andb_true_iff in Hrest as [Hat Hdom]. apply N.eqb_eq in Hat as ->.
    apply domain_tail_spec in Hdom
      as (domain & tld & rest' & -> & Hd & [|Hdne] & Ht & Hlen & Hend); [done|].
    apply at_end_cases in Hend as [-> | ->].
    + exists (span local_char (strip email)).1, domain, tld.
      rewrite app_nil_r in Hs. by repeat split.
    + exfalso. assert (Hsp : isspace NL = false); [|done].
      apply (strip_last ((span local_char (strip email)).1 ++ [64%N] ++ domain
                         ++ [46%N] ++ tld) NL email).
      rewrite Hs at 1. by rewrite <- !app_assoc.
  - intros (local_part & domain & tld & Heq & Hlne & Hlc & Hdne & Hdc & Hlen & Htc).
    rewrite Heq, span_app; [|done|by intros c t [= <- _]]. cbn [fst snd].
    split; [by apply bool_decide_eq_false|].
    cbn [app]. rewrite N.eqb_refl. cbn [andb]. apply domain_tail_spec.
    exists domain, tld, []. rewrite app_nil_r. repeat split; try done. by right.
Qed.

(** ** The allowlist *)

Lemma endswith_spec p s : endswith p s = true ↔ ∃ t, s = t ++ p.
Proof.
  unfold endswith. rewrite startswith_spec. split.
  - intros [t Ht]. exists (rev t). apply (f_equal (@rev _)) in Ht.
    by rewrite rev_involutive, rev_app_distr, rev_involutive in Ht.
  - intros [t ->]. exists (rev t). by rewrite rev_app_distr.
Qed.

Lemma any_suffix_strings e ds :
  any_suffix e (map JString ds)
  = Ok (existsb (fun d => endswith (lower (strip d)) e) ds).
Proof.
  induction ds as [|d ds IH]; [done|]. cbn [map any_suffix json_str]. rsimpl.
  cbn [existsb]. by destruct (endswith _ e).
Qed.

(** X21. With a list of strings, an address is allowed exactly when, trimmed
    and in lower case, it ends with one of the entries trimmed and in lower
    case; so a blank entry in the list allows every address. *)
Theorem allowed_domain_suffix (domains : list pystr) (email : pystr) :
  (is_allowed_domain (map JString domains) email = Ok true
   ↔ ∃ d before, d ∈ domains ∧ lower (strip email) = before ++ lower (strip d))
  ∧ (is_allowed_domain (map JString domains) email = Ok false
     ∨ is_allowed_domain (map JString domains) email = Ok true)
  ∧ ((∃ d, d ∈ domains ∧ strip d = []) →
     is_allowed_domain (map JString domains) email = Ok true).
Proof.
  unfold is_allowed_domain. rewrite any_suffix_strings.
  assert (Hiff : existsb (fun d => endswith (lower (strip d)) (lower (strip email))) domains
                 = true
                 ↔ ∃ d before, d ∈ domains ∧ lower (strip email) = before ++ lower (strip d)).
  { rewrite existsb_exists. split.
    - intros (d & Hd & Hend). apply endswith_spec in Hend as [t Ht].
      exists d, t. split; [by apply list_elem_of_In | done].
    - intros (d & t & Hd & Ht). exists d. split; [by apply list_elem_of_In|].
      apply endswith_spec. eauto. }
  split; [|split].
  - rewrite <- Hiff. split; [by intros [= ->] | by intros ->].
  - destruct (existsb _ _); eauto.
  - intros (d & Hd & Hblank). f_equal. apply Hiff.
    exists d, (lower (strip email)). split; [done|].
    rewrite Hblank. change (lower []) with (@nil char). by rewrite app_nil_r.
Qed.

(** X22. An administrator is always let in by a list of strings that holds
    the company domain. *)
Theorem ssa_admin_is_allowed (domains : list pystr) (email : pystr) :
  is_ssa_admin email = true →
  SSA_ADMIN_DOMAIN ∈ domains →
  is_allowed_domain (map JString domains) email = Ok true.
Proof.
  intros Hadmin Hin. unfold is_allowed_domain. rewrite any_suffix_strings. f_equal.
  apply existsb_exists. exists SSA_ADMIN_DOMAIN. split; [by apply list_elem_of_In|].
  exact Hadmin.
Qed.

(** X23. An entry of the list that is not a string makes the check raise,
    unless an entry before it has let the address in. *)
Theorem allowed_domain_bad_entry (before : list pystr) (bad : json)
    (after : list json) (email : pystr) :
  (∀ s, bad ≠ JString s) →
  is_allowed_domain (map JString before ++ bad :: after) email
  = if existsb (fun d => endswith (lower (strip d)) (lower (strip email))) before
    then Ok true else Err AttributeError.
Proof.
  intros Hbad. unfold is_allowed_domain.
  induction before as [|d before IH]; cbn [map app any_suffix existsb].
  - destruct bad; try done. by destruct (Hbad s).
  - cbn [json_str]. rsimpl. by destruct (endswith _ _).
Qed.

Lemma str_in_spec s items : str_in s items = true ↔ JString s ∈ items.
Proof.
  unfold str_in. rewrite existsb_exists. split.
  - intros (v & Hv & Hs). apply list_elem_of_In in Hv.
    destruct v; try done. simpl in Hs. apply bool_decide_eq_true in Hs. by subst.
  - intros Hin. exists (JString s). split; [by apply list_elem_of_In|].
    simpl. by apply bool_decide_eq_true.
Qed.

(** X24. Whatever the allowlist file is, missing, unreadable, not JSON, not
    an object, without a list of domains or with an empty one, the list that
    is loaded is not empty and holds the company domain. *)
Theorem load_domains_has_admin_domain (file : file_state) :
  _load_domains file ≠ [] ∧ JString SSA_ADMIN_DOMAIN ∈ _load_domains file.
Proof.
  assert (Hone : [JString SSA_ADMIN_DOMAIN] ≠ []
                 ∧ JString SSA_ADMIN_DOMAIN ∈ [JString SSA_ADMIN_DOMAIN]).
  { split; [done | by left]. }
  unfold _load_domains. destruct file as [| |text]; try done.
  destruct (json_loads text) as [[| | | | |members]|]; try done.
  destruct (default _ _) as [| | | |[|d ds]|]; try done.
  destruct (str_in SSA_ADMIN_DOMAIN (d :: ds)) eqn:Hin.
  - split; [done|]. by apply str_in_spec.
  - split; [done | by left].
Qed.

(** X25. Saving puts the company domain in front of a list that lacks it
    and leaves a list that holds it as it is; saving what was saved changes
    nothing. *)
Theorem save_domains_keeps_admin_domain (domains : list json) :
  JString SSA_ADMIN_DOMAIN ∈ (_save_domains domains).1
  ∧ (JString SSA_ADMIN_DOMAIN ∈ domains → (_save_domains domains).1 = domains)
  ∧ (JString SSA_ADMIN_DOMAIN ∉ domains →
     (_save_domains domains).1 = JString SSA_ADMIN_DOMAIN :: domains)
  ∧ _save_domains (_save_domains domains).1 = _save_domains domains.
Proof.
  unfold _save_domains. cbn [fst].
  destruct (str_in SSA_ADMIN_DOMAIN domains) eqn:Hin.
  - apply str_in_spec in Hin as Hin'.
    split; [done|]. split; [done|]. split; [done|]. by rewrite Hin.
  - assert (Hnot : JString SSA_ADMIN_DOMAIN ∉ domains).
    { intros H. apply str_in_spec in H. congruence. }
    assert (Hnow : str_in SSA_ADMIN_DOMAIN (JString SSA_ADMIN_DOMAIN :: domains) = true).
    { apply str_in_spec. by left. }
    split; [by left|]. split; [done|]. split; [done|]. by rewrite Hnow.
Qed.

(** X26. When the JSON library reads back the object that saving writes,
    loading the file that was just saved gives the list as saving left
    it. *)
Theorem save_then_load_domains (domains : list json) :
  read_back (JObject [(lit "domains", JArray (_save_domains domains).1)]) →
  _load_domains (_save_domains domains).2 = (_save_domains domains).1.
Proof.
  unfold read_back, _save_domains. cbn [fst snd]. intros Hround. unfold _load_domains.
  rewrite Hround. cbn [obj_get]. rewrite bool_decide_eq_true_2 by done.
  cbn [default from_option id].
  destruct (str_in SSA_ADMIN_DOMAIN domains) eqn:Hin.
  - destruct domains as [|d ds]; [done|]. by rewrite Hin.
  - assert (Hnow : str_in SSA_ADMIN_DOMAIN (JString SSA_ADMIN_DOMAIN :: domains) = true).
    { apply str_in_spec. by left. }
    by rewrite Hnow.
Qed.

(** ** The API key *)

Lemma filter_id {A} (f : A → bool) l : Forall (fun c => f c = true) l → List.filter f l = l.
Proof. induction 1 as [|c l Hc _ IH]; simpl; [done|]. by rewrite Hc, IH. Qed.

Lemma lstrip_chars_suffix f s : ∃ removed, s = removed ++ lstrip_chars f s.
Proof.
  induction s as [|c s [removed IH]]; simpl; [by exists []|].
  destruct (f c); [|by exists []]. exists (c :: removed). simpl. congruence.
Qed.

Lemma strip_chars_sub f s : ∀ c, c ∈ strip_chars f s → c ∈ s.
Proof.
  intros c Hc. unfold strip_chars in Hc.
  apply list_elem_of_In in Hc. apply in_rev in Hc.
  destruct (lstrip_chars_suffix f (rev (lstrip_chars f s))) as [r1 H1].
  destruct (lstrip_chars_suffix f s) as [r2 H2].
  rewrite H2. apply elem_of_app. right. apply list_elem_of_In, in_rev.
  rewrite H1. apply in_or_app. by right.
Qed.

Lemma lstrip_chars_fixed f c t : f c = false → lstrip_chars f (c :: t) = c :: t.
Proof. intros H. simpl. by rewrite H. Qed.

Lemma strip_chars_fixed f s :
  (∀ c t, s = c :: t → f c = false) → (∀ t c, s = t ++ [c] → f c = false) →
  strip_chars f s = s.
Proof.
  intros Hhead Hlast. unfold strip_chars. destruct s as [|c t]; [done|].
  rewrite lstrip_chars_fixed by (by eapply Hhead).
  destruct (exists_last (l:=c :: t)) as (init & z & Hz); [done|].
  rewrite Hz, rev_app_distr. cbn [rev app].
  rewrite lstrip_chars_fixed by (by eapply Hlast).
  change (z :: rev init) with (rev [z] ++ rev init).
  by rewrite <- rev_app_distr, rev_involutive.
Qed.

Lemma key_char_spec c : key_char c = true ↔ printable c = true ∧ isspace c = false.
Proof.
  unfold key_char, printable. rewrite !andb_true_iff, !N.leb_le. split.
  - intros [H1 H2]. split; [lia|]. unfold isspace.
    repeat (apply orb_false_iff; split); try (apply andb_false_iff);
      rewrite ?N.leb_gt, ?N.eqb_neq; lia.
  - intros [[H1 H2] Hs]. split; [|done].
    destruct (decide (c = 32%N)) as [->|]; [done|]. lia.
Qed.

(** X27. A sanitized key holds nothing but visible ASCII characters, the
    space excluded; a key that is so made and neither begins nor ends with a
    quote sign is left as it is, hence sanitizing it twice is sanitizing it
    once. *)
Theorem sanitize_key_visible (key : pystr) :
  Forall (fun c => key_char c = true) (_sanitize_key key)
  ∧ (Forall (fun c => key_char c = true) key →
     (∀ c t, key = c :: t → quote_char c = false) →
     (∀ t c, key = t ++ [c] → quote_char c = false) →
     _sanitize_key key = key).
Proof.
  split.
  - unfold _sanitize_key. apply Forall_forall. intros c Hc.
    apply list_elem_of_In, filter_In in Hc as [Hc Hp].
    apply list_elem_of_In, strip_chars_sub in Hc.
    apply list_elem_of_In, filter_In in Hc as [_ Hs].
    apply key_char_spec. by rewrite negb_true_iff in Hs.
  - intros Hkey Hhead Hlast. unfold _sanitize_key.
    rewrite (filter_id (fun c => negb (isspace c))).
    + rewrite strip_chars_fixed by done. apply filter_id.
      eapply Forall_impl; [done|]. intros c Hc. by apply key_char_spec in Hc as [? _].
    + eapply Forall_impl; [done|]. intros c Hc. apply key_char_spec in Hc as [_ Hc].
      by rewrite Hc.
Qed.

(** ** Pasted keys *)

Lemma lstrip_chars_app f removed s :
  Forall (fun c => f c = true) removed → (∀ c t, s = c :: t → f c = false) →
  lstrip_chars f (removed ++ s) = s.
Proof.
  intros Hr Hs. induction removed as [|c removed IH]; cbn [app].
  - destruct s as [|c t]; [done|]. cbn [lstrip_chars]. by rewrite (Hs c t eq_refl).
  - inversion Hr as [|? ? Hc Hr']; subst. cbn [lstrip_chars]. rewrite Hc. by apply IH.
Qed.

Lemma filter_none {A} (f : A → bool) l :
  Forall (fun c => f c = false) l → List.filter f l = [].
Proof. induction 1 as [|c l Hc _ IH]; simpl; [done|]. by rewrite Hc. Qed.

(** X28. A key pasted with white space before and after it and with quote
    signs around it is sanitized to the bare key, when the bare key is not
    empty, is made of visible ASCII characters and neither begins nor ends
    with a quote sign. *)
Theorem sanitize_key_unwraps (space1 quotes1 key quotes2 space2 : pystr) :
  Forall (fun c => isspace c = true) space1 →
  Forall (fun c => isspace c = true) space2 →
  Forall (fun c => quote_char c = true) quotes1 →
  Forall (fun c => quote_char c = true) quotes2 →
  key ≠ [] →
  Forall (fun c => key_char c = true) key →
  (∀ c t, key = c :: t → quote_char c = false) →
  (∀ t c, key = t ++ [c] → quote_char c = false) →
  _sanitize_key (space1 ++ quotes1 ++ key ++ quotes2 ++ space2) = key.
Proof.
  intros Hs1 Hs2 Hq1 Hq2 Hne Hkey Hhead Hlast. unfold _sanitize_key.
  assert (Hquote : ∀ q, Forall (fun c => quote_char c = true) q →
            List.filter (fun c => negb (isspace c)) q = q).
  { intros q Hq. apply filter_id. eapply Forall_impl; [done|].
    intros c Hc. unfold quote_char in Hc. cbn [existsb] in Hc.
    rewrite !orb_true_iff, !N.eqb_eq in Hc.
    destruct Hc as [->|[->|[->|]]]; done. }
  assert (Hspace : ∀ w, Forall (fun c => isspace c = true) w →
            List.filter (fun c => negb (isspace c)) w = []).
  { intros w Hw. apply filter_none. eapply Forall_impl; [done|].
    intros c Hc. by rewrite Hc. }
  rewrite !List.filter_app, (Hspace space1), (Hspace space2), (Hquote quotes1),
    (Hquote quotes2), app_nil_r by done. cbn [app].
  rewrite (filter_id (fun c => negb (isspace c)) key).
  2: { eapply Forall_impl; [done|]. intros c Hc.
       apply key_char_spec in Hc as [_ Hc]. by rewrite Hc. }
  unfold strip_chars. rewrite lstrip_chars_app; [|done|].
  2: { intros c t Hc. destruct key as [|k key']; [done|]. injection Hc as <- _.
       by eapply Hhead. }
  rewrite rev_app_distr, lstrip_chars_app.
  - rewrite rev_involutive. apply filter_id.
    eapply Forall_impl; [done|]. intros c Hc. by apply key_char_spec in Hc as [? _].
  - by apply List.Forall_rev.
  - intros c t Hc. apply (Hlast (rev t) c).
    rewrite <- (rev_involutive key), Hc. done.
Qed.

(** ** The reply of the provider *)

Lemma closing_fence_here_spec s tail :
  closing_fence_here s = Some tail →
  ∃ ws, Forall (fun c => isspace c = true) ws ∧ s = ws ++ FENCE ++ tail
        ∧ (tail = [] ∨ tail = [NL]).
Proof.
  unfold closing_fence_here. destruct (lstrip_suffix s) as (ws & Hs & Hws).
  destruct (startswith FENCE (lstrip s)) eqn:Hf; [|done].
  apply startswith_spec in Hf as [t Ht]. rewrite Ht in *.
  change (skipn 3 (FENCE ++ t)) with t.
  destruct (at_end t) eqn:Hend; [|done]. intros [= <-].
  exists ws. split; [done|]. split; [done|]. by apply at_end_cases.
Qed.

Lemma closing_fence_here_fence ws :
  Forall (fun c => isspace c = true) ws → closing_fence_here (ws ++ FENCE) = Some [].
Proof.
  intros Hws. unfold closing_fence_here.
  rewrite (lstrip_spaces ws FENCE Hws). done.
Qed.

Lemma last_char_eq {A} (a b : list A) x y : a ++ [x] = b ++ [y] → x = y.
Proof. intros H. by apply app_inj_tail in H as [_ ?]. Qed.

(** No fence is found while text that ends visibly is still to be read. *)
Lemma closing_fence_not_in_body body ws :
  body ≠ [] → ends_visibly body →
  Forall (fun c => isspace c = true) ws →
  closing_fence_here (body ++ ws ++ FENCE) = None.
Proof.
  intros Hne Hvis Hws.
  destruct (closing_fence_here (body ++ ws ++ FENCE)) as [tail|] eqn:Hc; [|done].
  exfalso. apply closing_fence_here_spec in Hc as (ws' & Hws' & Heq & [-> | ->]).
  - rewrite app_nil_r, !app_assoc in Heq. apply app_inv_tail in Heq.
    destruct (exists_last Hne) as (t & z & ->).
    assert (Hz : isspace z = true).
    { rewrite Forall_forall in Hws'. apply Hws'. rewrite <- Heq. set_solver. }
    by rewrite (Hvis t z eq_refl) in Hz.
  - change (body ++ ws ++ FENCE) with (body ++ ws ++ [96; 96]%N ++ [96%N]) in Heq.
    rewrite !app_assoc in Heq. by apply last_char_eq in Heq.
Qed.

Lemma sub_closing_fence_body body ws :
  ends_visibly body → Forall (fun c => isspace c = true) ws →
  sub_closing_fence (body ++ ws ++ FENCE) = body.
Proof.
  intros Hvis Hws. induction body as [|c body IH].
  - cbn [app]. destruct (ws ++ FENCE) as [|x l] eqn:Hl.
    { by destruct ws. }
    cbn [sub_closing_fence]. rewrite <- Hl, closing_fence_here_fence by done. done.
  - cbn [app sub_closing_fence].
    change (c :: body ++ ws ++ FENCE) with ((c :: body) ++ ws ++ FENCE).
    rewrite closing_fence_not_in_body by done. f_equal. apply IH.
    intros t z ->. apply (Hvis (c :: t) z). done.
Qed.

Lemma strip_fences_fenced word space1 body space2 :
  (word = [] ∨ word = lit "json") →
  Forall (fun c => isspace c = true) space1 →
  Forall (fun c => isspace c = true) space2 →
  begins_visibly body → ends_visibly body →
  (word = [] → space1 = [] → startswith (lit "json") body = false) →
  strip_fences (FENCE ++ word ++ space1 ++ body ++ space2 ++ FENCE) = body.
Proof.
  intros Hword Hs1 Hs2 Hbegin Hend Hjson. unfold strip_fences.
  assert (Hstrip : strip (FENCE ++ word ++ space1 ++ body ++ space2 ++ FENCE)
                   = FENCE ++ word ++ space1 ++ body ++ space2 ++ FENCE).
  { apply strip_fixed.
    - by intros c t [= <- _].
    - intros t c Heq.
      change (FENCE ++ word ++ space1 ++ body ++ space2 ++ FENCE)
        with (FENCE ++ word ++ space1 ++ body ++ space2 ++ [96; 96]%N ++ [96%N]) in Heq.
      rewrite !app_assoc in Heq. by apply last_char_eq in Heq as <-. }
  rewrite Hstrip. unfold sub_opening_fence.
  change (startswith FENCE (FENCE ++ ?x)) with true. cbv iota.
  change (skipn 3 (FENCE ++ ?x)) with x.
  set (kept := match body with [] => [] | _ => space2 end).
  assert (Hkept : Forall (fun c => isspace c = true) kept).
  { unfold kept. by destruct body. }
  assert (Hbody : lstrip (space1 ++ body ++ space2 ++ FENCE) = body ++ kept ++ FENCE).
  { rewrite lstrip_spaces by done. unfold kept. destruct body as [|c body'].
    - cbn [app]. rewrite lstrip_spaces by done. done.
    - cbn [app]. apply lstrip_fixed. by eapply Hbegin. }
  assert (Hopen :
    lstrip (if startswith (lit "json") (word ++ space1 ++ body ++ space2 ++ FENCE)
            then skipn 4 (word ++ space1 ++ body ++ space2 ++ FENCE)
            else word ++ space1 ++ body ++ space2 ++ FENCE)
    = body ++ kept ++ FENCE).
  { destruct Hword as [-> | ->].
    - cbn [app].
      destruct (startswith (lit "json") (space1 ++ body ++ space2 ++ FENCE)) eqn:Hj; [|done].
      exfalso. apply startswith_spec in Hj as [t Ht]. destruct space1 as [|w space1'].
      + cbn [app] in Ht. specialize (Hjson eq_refl eq_refl).
        destruct body as [|b1 [|b2 [|b3 [|b4 body']]]].
        * cbn [app] in Ht. inversion Hs2 as [|? ? Hsp _ Hx]; subst; [done|].
          injection Ht as -> _. done.
        * injection Ht as -> Ht. inversion Hs2 as [|? ? Hsp _ Hx]; subst; [done|].
          injection Ht as -> _. done.
        * injection Ht as -> -> Ht. inversion Hs2 as [|? ? Hsp _ Hx]; subst; [done|].
          injection Ht as -> _. done.
        * injection Ht as -> -> -> Ht. inversion Hs2 as [|? ? Hsp _ Hx]; subst; [done|].
          injection Ht as -> _. done.
        * injection Ht as -> -> -> -> _. done.
      + inversion Hs1 as [|? ? Hw _ Hx]; subst. injection Ht as -> _. done.
    - change (startswith (lit "json") (lit "json" ++ ?x)) with true. cbv iota.
      change (skipn 4 (lit "json" ++ ?x)) with x. done. }
  rewrite Hopen. by apply sub_closing_fence_body.
Qed.

(** X29. A reply wrapped in a code fence is read as its body: when the
    provider's reply is an opening fence, with or without the word json,
    white space, a body, white space and a closing fence, the call returns
    what the JSON library reads from the body alone, or reports the body as
    unreadable. The body neither begins nor ends with white space and, right
    after a bare fence, does not begin with the word json. *)
Theorem call_reads_fenced_reply (user_message system_message agent key : pystr)
    (p : provider) (word space1 body space2 : pystr) :
  strip key ≠ [] →
  route agent = Some p →
  fetch p (_sanitize_key key) system_message user_message
  = Returned (FENCE ++ word ++ space1 ++ body ++ space2 ++ FENCE) →
  (word = [] ∨ word = lit "json") →
  Forall (fun c => isspace c = true) space1 →
  Forall (fun c => isspace c = true) space2 →
  begins_visibly body → ends_visibly body →
  (word = [] → space1 = [] → startswith (lit "json") body = false) →
  call_ai_agent user_message system_message agent key
  = match json_loads body with
    | Some v => Returned v
    | None => Raised (NotJson body)
    end.
Proof.
  intros Hkey Hroute Hfetch Hword Hs1 Hs2 Hbegin Hend Hjson. unfold call_ai_agent.
  rewrite (bool_decide_eq_false_2 (strip key = [])) by done.
  rewrite bool_decide_eq_false_2 by (by intros ->).
  cbn [orb]. rewrite Hroute, Hfetch. by rewrite strip_fences_fenced.
Qed.

(** ** All or nothing *)

(** X30. The archive is made of all the records or of none: [create_zip]
    raises exactly when the record of some position raises while all the
    records before it go through, and what it raises is the exception of
    that record. *)
Theorem create_zip_first_error (prompts : list (gmap string pyval))
    (is_friday_list : list bool) (agent industry : pystr) (e : exn) :
  create_zip prompts is_friday_list agent industry = Err e
  ↔ ∃ i p f,
      prompts !! i = Some p ∧ is_friday_list !! i = Some f
      ∧ zip_record p f agent industry = Err e
      ∧ ∀ j q g, j < i → prompts !! j = Some q → is_friday_list !! j = Some g →
                 is_ok (zip_record q g agent industry) = true.
Proof.
  revert is_friday_list. induction prompts as [|p prompts IH]; intros flags.
  - simpl. split; [done|]. by intros (i & q & f & Hq & _).
  - destruct flags as [|f flags].
    + simpl. split; [done|]. by intros (i & q & g & _ & Hg & _).
    + cbn [create_zip]. specialize (IH flags).
      destruct (zip_record p f agent industry) as [entries|e0] eqn:Hrec; rsimpl.
      * destruct (create_zip prompts flags agent industry) as [rest|e1] eqn:Hzip; rsimpl.
        -- split; [done|]. intros (i & q & g & Hq & Hg & Hq_err & Hbefore).
           destruct i as [|i]; simpl in Hq, Hg.
           ++ injection Hq as <-. injection Hg as <-. congruence.
           ++ assert (Hex : Ok rest = Err e); [|done].
              apply IH. exists i, q, g. repeat split; try done.
              intros j q' g' Hj Hq' Hg'. apply (Hbefore (S j) q' g'); [lia|done|done].
        -- split.
           ++ intros Heq.
              destruct (proj1 IH Heq) as (i & q & g & Hq & Hg & Hq_err & Hbefore).
              exists (S i), q, g. repeat split; try done.
              intros [|j] q' g' Hj Hq' Hg'; simpl in Hq', Hg'.
              ** injection Hq' as <-. injection Hg' as <-. by rewrite Hrec.
              ** apply (Hbefore j); [lia|done|done].
           ++ intros (i & q & g & Hq & Hg & Hq_err & Hbefore).
              destruct i as [|i]; simpl in Hq, Hg.
              ** injection Hq as <-. injection Hg as <-. congruence.
              ** apply IH. exists i, q, g. repeat split; try done.
                 intros j q' g' Hj Hq' Hg'. apply (Hbefore (S j) q' g'); [lia|done|done].
      * split.
        -- intros [= ->]. exists 0, p, f. repeat split; try done. intros; lia.
        -- intros (i & q & g & Hq & Hg & Hq_err & Hbefore). destruct i as [|i]; simpl in Hq, Hg.
           ++ injection Hq as <-. injection Hg as <-. congruence.
           ++ specialize (Hbefore 0 p f). rewrite Hrec in Hbefore.
              discriminate Hbefore; [lia|done|done].
Qed.

End Coverage.

(** * The properties at work on the demo templates *)

Import Demo.








Lemma demo_built_eq :
  build_prompt_document record1 false [] [] None PNone = Ok (demo_data, demo_doc).
Proof. vm_compute. reflexivity. Qed.






(** A directory without templates: no document, no archive. *)
Lemma template_missing_is_fatal_witness :
  @template_file lib_no_templates (template_name false) = None
  ∧ @create_prompt_docx tables lib_no_templates record1 false [] [] None PNone
    = Err FileNotFoundError
  ∧ is_ok (@create_zip tables lib_no_templates [record1; record1] [true; false] [] [])
    = false.
Proof.
  split; [reflexivity|].
  destruct (@template_missing_is_fatal tables lib_no_templates false eq_refl)
    as [Hdoc Hzip].
  split.
  - exact (proj2 (Hdoc record1 [] [] None PNone)).
  - exact (Hzip [record1; record1] [true; false] [] [] 1%nat record1 eq_refl eq_refl).
Defined.

(** The settings of the demo template hold the reference once. *)
Lemma fix_template_ref_idempotent_witness :
  doc_settings (_fix_template_ref (template py:"DP##-__"))
    = [py:"zoom"; py:"defaultTabStop"]
  ∧ _fix_template_ref (_fix_template_ref (template py:"DP##-__"))
    = _fix_template_ref (template py:"DP##-__")
  ∧ doc_settings demo_doc = [py:"zoom"; py:"defaultTabStop"].
Proof.
  destruct fix_template_ref_idempotent as (Hidem & _ & _ & Hbuilt).
  split; [vm_compute; reflexivity|]. split; [apply Hidem|].
  rewrite (Hbuilt record1 false [] [] None PNone demo_data demo_doc daily_file
             (template py:"DP##-__") eq_refl eq_refl demo_built_eq).
  vm_compute. reflexivity.
Defined.



(** A record that requires an attachment and brings only white space. *)
Lemma blank_attachment_content_witness :
  let p := demo_record py:"DP02" true py:"Figures.xlsx" py:"   " in
  is_str_or_absent p "attachment_content" = true
  ∧ truthy (dict_get p "attachment_required" PNone) = true
  ∧ generate_attachment_docx p = Ok None
  ∧ ∃ name data' d,
      zip_record p false [] [] = Ok [(name, docx_save d)]
      ∧ build_prompt_document p false [] [] None PNone = Ok (data', d).
Proof.
  cbv zeta. split; [vm_compute; reflexivity|]. split; [vm_compute; reflexivity|].
  destruct (blank_attachment_content
              (demo_record py:"DP02" true py:"Figures.xlsx" py:"   "))
    as [Hnone Honly]; [vm_compute; reflexivity|].
  assert (Hblank : strip (str_field (demo_record py:"DP02" true py:"Figures.xlsx" py:"   ")
                            "attachment_content" []) = [])
    by (vm_compute; reflexivity).
  split; [by apply Hnone|].
  assert (Hzip : zip_record (demo_record py:"DP02" true py:"Figures.xlsx" py:"   ")
                   false [] [] = Ok [(py:"DP02 - Summarization.docx", saved_file)])
    by (vm_compute; reflexivity).
  destruct (Honly Hblank false [] [] _ Hzip) as (name & data' & d & Heq & Hbuild).
  exists name, data', d. split; [|exact Hbuild]. rewrite Hzip. by rewrite Heq.
Defined.

(** * The further properties at work *)

(** A row of the template without a merged cell, and one with. *)
Lemma unique_cells_unmerged_witness :
  NoDup [3; 4]%nat
  ∧ _unique_cells [3; 4]%nat = [3; 4]%nat
  ∧ _unique_cells (_unique_cells [3; 4; 4]%nat) = _unique_cells [3; 4; 4]%nat.
Proof.
  assert (H : NoDup [3; 4]%nat) by (apply (bool_decide_unpack _); reflexivity).
  split; [exact H|]. split.
  - exact (proj1 (unique_cells_unmerged [3; 4]%nat) H).
  - exact (proj2 (unique_cells_unmerged [3; 4; 4]%nat)).
Defined.

(** A cell written twice. *)
Lemma set_cell_text_overwrites_witness :
  _set_cell_text (text_cell py:"old") (PStr py:"first") false = Ok demo_written
  ∧ _set_cell_text demo_written (PStr py:"second") true
    = _set_cell_text (text_cell py:"old") (PStr py:"second") true
  ∧ kept_children demo_written = kept_children (text_cell py:"old").
Proof.
  assert (H : _set_cell_text (text_cell py:"old") (PStr py:"first") false = Ok demo_written)
    by (vm_compute; reflexivity).
  split; [exact H|].
  exact (set_cell_text_overwrites (text_cell py:"old") demo_written
           (PStr py:"first") (PStr py:"second") false true H).
Defined.

(** The empty string written into a cell. *)
Lemma set_cell_text_falsy_witness :
  truthy (PStr []) = false
  ∧ _set_cell_text (text_cell py:"old") (PStr []) true
    = Ok (kept_children (text_cell py:"old") ++ [TcP (empty_paragraph true)])
  ∧ _get_cell_text (kept_children (text_cell py:"old") ++ [TcP (empty_paragraph true)])
    = strip (kept_text (text_cell py:"old")).
Proof.
  split; [reflexivity|].
  exact (set_cell_text_falsy (text_cell py:"old") (PStr []) true eq_refl).
Defined.

(** An indented line typed with a hyphen. *)
Lemma bullet_marker_normalized_witness :
  Forall (fun c => isspace c = true) py:"  "
  ∧ rstrip py:"first item " ≠ []
  ∧ display_line (py:"  " ++ 45%N :: 32%N :: py:"first item ")
    = BULLET :: 32%N :: rstrip py:"first item ".
Proof.
  assert (Hws : Forall (fun c => isspace c = true) py:"  ") by (repeat constructor).
  assert (Hne : rstrip py:"first item " ≠ []) by (vm_compute; discriminate).
  split; [exact Hws|]. split; [exact Hne|].
  exact (proj1 (bullet_marker_normalized py:"  " py:"first item " 45%N
                  (or_introl eq_refl) Hws) Hne).
Defined.

(** The header of the daily template named twice. *)
Lemma header_update_last_wins_witness :
  ¬ blank py:"DP01 - Summarization"
  ∧ _update_header_filename
      (_update_header_filename (template py:"DP##-__") py:"DP01 - Summarization")
      py:"DP02 - Drafting"
    = _update_header_filename (template py:"DP##-__") py:"DP02 - Drafting".
Proof.
  assert (H : ¬ blank py:"DP01 - Summarization") by (vm_compute; discriminate).
  split; [exact H|].
  exact (header_update_last_wins (template py:"DP##-__") py:"DP01 - Summarization"
           py:"DP02 - Drafting" H).
Defined.

(** The daily template filled from the first record. *)
Lemma only_first_table_filled_witness :
  template_file (template_name false) = Some daily_file
  ∧ docx_parse daily_file = Ok (template py:"DP##-__")
  ∧ build_prompt_document record1 false [] [] None PNone = Ok (demo_data, demo_doc)
  ∧ ∃ before t cells' after,
      doc_body (template py:"DP##-__") = before ++ BTbl t :: after
      ∧ Forall (fun e => is_tbl e = false) before
      ∧ doc_body demo_doc = before ++ BTbl (Table (tbl_rows t) cells') :: after
      ∧ ∀ i, (∀ row, row ∈ tbl_rows t → i ∉ row) → cells' !! i = tbl_cells t !! i.
Proof.
  split; [reflexivity|]. split; [reflexivity|]. split; [exact demo_built_eq|].
  exact (only_first_table_filled record1 false [] [] PNone demo_data demo_doc
           daily_file (template py:"DP##-__") eq_refl eq_refl demo_built_eq).
Defined.

(** The first record after the builder has run. *)
Lemma record_gets_attachment_text_witness :
  build_prompt_document record1 false [] [] None PNone = Ok (demo_data, demo_doc)
  ∧ demo_data = <["attachment_text"%string := attachment_text record1]> record1
  ∧ (truthy (dict_get record1 "attachment_required" PNone) = false →
     demo_data !! "attachment_text"%string = Some (PStr py:"None required"))
  ∧ (∀ key, key ≠ "attachment_text"%string → demo_data !! key = record1 !! key).
Proof.
  split; [exact demo_built_eq|].
  exact (record_gets_attachment_text record1 false [] [] None PNone demo_data demo_doc
           demo_built_eq).
Defined.

(** A daily and a Friday record packed together and apart. *)
Lemma create_zip_app_witness :
  length [record1] = length [false]
  ∧ create_zip ([record1] ++ [record1]) ([false] ++ [true]) [] []
    = (entries1 ← create_zip [record1] [false] [] [];
       entries2 ← create_zip [record1] [true] [] [];
       Ok (entries1 ++ entries2)).
Proof.
  split; [reflexivity|].
  exact (create_zip_app [record1] [record1] [false] [true] [] [] eq_refl).
Defined.

(** A spreadsheet named as the attachment. *)
Lemma attachment_name_ends_in_docx_witness :
  dict_get demo_attached "attachment_filename" (PStr py:"Attachment.docx")
  = PStr py:"Figures.xlsx"
  ∧ py:"Figures.xlsx" ≠ []
  ∧ attachment_name_of demo_attached false = Ok PNone
  ∧ ∃ name,
      attachment_name_of demo_attached true = Ok (PStr name)
      ∧ endswith py:".docx" name = true
      ∧ (endswith py:".docx" py:"Figures.xlsx" = true → name = py:"Figures.xlsx")
      ∧ (endswith py:".docx" py:"Figures.xlsx" = false →
         (∀ stem ext, py:"Figures.xlsx" = stem ++ 46%N :: ext → dotless ext →
                      name = stem ++ py:".docx")
         ∧ (dotless py:"Figures.xlsx" → name = py:"Figures.xlsx" ++ py:".docx")).
Proof.
  assert (H : dict_get demo_attached "attachment_filename" (PStr py:"Attachment.docx")
              = PStr py:"Figures.xlsx") by (vm_compute; reflexivity).
  assert (Hne : py:"Figures.xlsx" ≠ []) by discriminate.
  split; [exact H|]. split; [exact Hne|].
  exact (attachment_name_ends_in_docx demo_attached py:"Figures.xlsx" H Hne).
Defined.

(** The two entries of the record with an attachment. *)
Lemma attachment_entry_name_safe_witness :
  zip_record demo_attached false [] [] = Ok [demo_main; demo_standalone]
  ∧ ∃ description,
      demo_standalone.1 = py_format (dict_get demo_attached "prompt_id" (PStr py:"P01"))
                          ++ py:" - Sample Attachment - " ++ description ++ py:".docx"
      ∧ length description ≤ 50
      ∧ Forall (fun c => path_char c = false) description.
Proof.
  assert (H : zip_record demo_attached false [] [] = Ok [demo_main; demo_standalone])
    by (vm_compute; reflexivity).
  split; [exact H|].
  exact (attachment_entry_name_safe demo_attached false [] [] demo_main demo_standalone H).
Defined.

Lemma zip_record_entries_witness :
  zip_record demo_attached false [] [] = Ok [demo_main; demo_standalone]
  ∧ ∃ topic main,
      as_str (dict_get demo_attached "demonstrated_ai_capability" (PStr py:"Prompt"))
      = Ok topic
      ∧ ([demo_main; demo_standalone]
         = [(py_format (dict_get demo_attached "prompt_id" (PStr py:"P01"))
               ++ py:" - " ++ strip topic ++ py:".docx", main)]
         ∨ ∃ name b,
             [demo_main; demo_standalone]
             = [(py_format (dict_get demo_attached "prompt_id" (PStr py:"P01"))
                   ++ py:" - " ++ strip topic ++ py:".docx", main); (name, b)]
             ∧ truthy (dict_get demo_attached "attachment_required" PNone) = true
             ∧ generate_attachment_docx demo_attached = Ok (Some b)).
Proof.
  assert (H : zip_record demo_attached false [] [] = Ok [demo_main; demo_standalone])
    by (vm_compute; reflexivity).
  split; [exact H|].
  exact (zip_record_entries demo_attached false [] [] [demo_main; demo_standalone] H).
Defined.


(** A blank entry in the allowlist lets a stranger in. *)
Lemma allowed_domain_suffix_witness :
  (∃ d, d ∈ [SSA_ADMIN_DOMAIN; py:"  "] ∧ strip d = [])
  ∧ is_allowed_domain (map JString [SSA_ADMIN_DOMAIN; py:"  "]) py:"eve@example.org"
    = Ok true.
Proof.
  assert (H : ∃ d, d ∈ [SSA_ADMIN_DOMAIN; py:"  "] ∧ strip d = []).
  { exists (lit "  "). split; [|reflexivity]. apply list_elem_of_further, list_elem_of_here. }
  split; [exact H|].
  exact (proj2 (proj2 (allowed_domain_suffix [SSA_ADMIN_DOMAIN; py:"  "]
                         py:"eve@example.org")) H).
Defined.

(** An administrator who types the address in capitals. *)
Lemma ssa_admin_is_allowed_witness :
  is_ssa_admin py:" Ann.Lee@SSAandCo.com " = true
  ∧ SSA_ADMIN_DOMAIN ∈ [py:"@example.org"; SSA_ADMIN_DOMAIN]
  ∧ is_allowed_domain (map JString [py:"@example.org"; SSA_ADMIN_DOMAIN])
      py:" Ann.Lee@SSAandCo.com " = Ok true.
Proof.
  assert (H : is_ssa_admin py:" Ann.Lee@SSAandCo.com " = true) by (vm_compute; reflexivity).
  assert (Hin : SSA_ADMIN_DOMAIN ∈ [py:"@example.org"; SSA_ADMIN_DOMAIN])
    by (apply list_elem_of_further, list_elem_of_here).
  split; [exact H|]. split; [exact Hin|].
  exact (ssa_admin_is_allowed [py:"@example.org"; SSA_ADMIN_DOMAIN]
           py:" Ann.Lee@SSAandCo.com " H Hin).
Defined.

(** A number in the allowlist. *)
Lemma allowed_domain_bad_entry_witness :
  (∀ s, JNumber py:"7" ≠ JString s)
  ∧ is_allowed_domain (map JString [py:"@example.org"] ++ JNumber py:"7" :: [])
      py:"ann@ssaandco.com"
    = (if existsb (fun d => endswith (lower (strip d)) (lower (strip py:"ann@ssaandco.com")))
            [py:"@example.org"]
       then Ok true else Err AttributeError)
  ∧ is_allowed_domain (map JString [py:"@example.org"] ++ JNumber py:"7" :: [])
      py:"ann@ssaandco.com" = Err AttributeError.
Proof.
  assert (H : ∀ s, JNumber py:"7" ≠ JString s) by (intros s; discriminate).
  split; [exact H|]. split; [|vm_compute; reflexivity].
  exact (allowed_domain_bad_entry [py:"@example.org"] (JNumber py:"7") []
           py:"ann@ssaandco.com" H).
Defined.

(** An allowlist without the company domain, saved. *)
Lemma save_domains_keeps_admin_domain_witness :
  (JString SSA_ADMIN_DOMAIN ∉ demo_domains)
  ∧ (_save_domains demo_domains).1 = JString SSA_ADMIN_DOMAIN :: demo_domains.
Proof.
  assert (H : JString SSA_ADMIN_DOMAIN ∉ demo_domains).
  { intros Hin. apply list_elem_of_singleton in Hin. discriminate Hin. }
  split; [exact H|].
  exact (proj1 (proj2 (proj2 (save_domains_keeps_admin_domain demo_domains))) H).
Defined.

(** ... and loaded again. *)
Lemma save_then_load_domains_witness :
  read_back (JObject [(py:"domains", JArray (_save_domains demo_domains).1)])
  ∧ _load_domains (_save_domains demo_domains).2 = (_save_domains demo_domains).1.
Proof.
  assert (H : read_back (JObject [(py:"domains", JArray (_save_domains demo_domains).1)]))
    by (vm_compute; reflexivity).
  split; [exact H|].
  exact (save_then_load_domains demo_domains H).
Defined.

(** A key that needs no cleaning. *)
Lemma sanitize_key_visible_witness :
  Forall (fun c => key_char c = true) demo_key
  ∧ (∀ c t, demo_key = c :: t → quote_char c = false)
  ∧ (∀ t c, demo_key = t ++ [c] → quote_char c = false)
  ∧ _sanitize_key demo_key = demo_key.
Proof.
  assert (Hkey : Forall (fun c => key_char c = true) demo_key) by (repeat constructor).
  assert (Hhead : ∀ c t, demo_key = c :: t → quote_char c = false).
  { intros c t H. injection H as <- _. reflexivity. }
  assert (Hlast : ∀ t c, demo_key = t ++ [c] → quote_char c = false).
  { intros t c H. change demo_key with (py:"sk-ant-api03-dem" ++ [111%N]) in H.
    apply last_char_eq in H as <-. reflexivity. }
  split; [exact Hkey|]. split; [exact Hhead|]. split; [exact Hlast|].
  exact (proj2 (sanitize_key_visible demo_key) Hkey Hhead Hlast).
Defined.

(** The same key pasted with quotes and a line feed. *)
Lemma sanitize_key_unwraps_witness :
  Forall (fun c => isspace c = true) [32%N]
  ∧ Forall (fun c => isspace c = true) [NL]
  ∧ Forall (fun c => quote_char c = true) [34%N]
  ∧ Forall (fun c => quote_char c = true) [34%N]
  ∧ demo_key ≠ []
  ∧ Forall (fun c => key_char c = true) demo_key
  ∧ (∀ c t, demo_key = c :: t → quote_char c = false)
  ∧ (∀ t c, demo_key = t ++ [c] → quote_char c = false)
  ∧ _sanitize_key ([32%N] ++ [34%N] ++ demo_key ++ [34%N] ++ [NL]) = demo_key.
Proof.
  assert (Hs1 : Forall (fun c => isspace c = true) [32%N]) by (repeat constructor).
  assert (Hs2 : Forall (fun c => isspace c = true) [NL]) by (repeat constructor).
  assert (Hq : Forall (fun c => quote_char c = true) [34%N]) by (repeat constructor).
  assert (Hne : demo_key ≠ []) by discriminate.
  assert (Hkey : Forall (fun c => key_char c = true) demo_key) by (repeat constructor).
  assert (Hhead : ∀ c t, demo_key = c :: t → quote_char c = false).
  { intros c t H. injection H as <- _. reflexivity. }
  assert (Hlast : ∀ t c, demo_key = t ++ [c] → quote_char c = false).
  { intros t c H. change demo_key with (py:"sk-ant-api03-dem" ++ [111%N]) in H.
    apply last_char_eq in H as <-. reflexivity. }
  do 8 (split; [assumption|]).
  exact (sanitize_key_unwraps [32%N] [34%N] demo_key [34%N] [NL]
           Hs1 Hs2 Hq Hq Hne Hkey Hhead Hlast).
Defined.

(** A fenced reply of two numbers. *)
Lemma call_reads_fenced_reply_witness :
  strip demo_key ≠ []
  ∧ route py:"Claude (Anthropic)" = Some Claude
  ∧ fetch Claude (_sanitize_key demo_key) py:"system" py:"user"
    = Returned (FENCE ++ py:"json" ++ [NL] ++ demo_body ++ [NL] ++ FENCE)
  ∧ Forall (fun c => isspace c = true) [NL]
  ∧ begins_visibly demo_body ∧ ends_visibly demo_body
  ∧ json_loads demo_body = Some (JArray [JNumber py:"1"; JNumber py:"2"])
  ∧ call_ai_agent py:"user" py:"system" py:"Claude (Anthropic)" demo_key
    = match json_loads demo_body with
      | Some v => Returned v
      | None => Raised (NotJson demo_body)
      end.
Proof.
  assert (Hkey : strip demo_key ≠ []) by (vm_compute; discriminate).
  assert (Hroute : route py:"Claude (Anthropic)" = Some Claude) by (vm_compute; reflexivity).
  assert (Hfetch : fetch Claude (_sanitize_key demo_key) py:"system" py:"user"
                   = Returned (FENCE ++ py:"json" ++ [NL] ++ demo_body ++ [NL] ++ FENCE))
    by (vm_compute; reflexivity).
  assert (Hs : Forall (fun c => isspace c = true) [NL]) by (repeat constructor).
  assert (Hbegin : begins_visibly demo_body).
  { intros c t H. injection H as <- _. reflexivity. }
  assert (Hend : ends_visibly demo_body).
  { intros t c H. change demo_body with (py:"[1, 2" ++ [93%N]) in H.
    apply last_char_eq in H as <-. reflexivity. }
  assert (Hjson : py:"json" = [] → [NL] = [] → startswith py:"json" demo_body = false)
    by (intros Hw; discriminate Hw).
  do 6 (split; [assumption|]). split; [vm_compute; reflexivity|].
  exact (call_reads_fenced_reply py:"user" py:"system" py:"Claude (Anthropic)" demo_key
           Claude py:"json" [NL] demo_body [NL]
           Hkey Hroute Hfetch (or_intror eq_refl) Hs Hs Hbegin Hend
           Hjson).
Defined.
